(** * neurodesk-mcp: the tool-dispatch layer of the neuroimaging MCP server

    A shallow embedding of [mcp/src/server.py] and
    [mcp/src/neuroimaging_functions.py].  The Python code is glue around three
    collaborators: the filesystem (through [pathlib.Path]), the [niwrap]
    wrapper library and the request context [ctx].  The embedding threads a
    state (filesystem + event trace) through an exception monad; [niwrap] is
    an oracle of the enclosing section. *)

From Stdlib Require Import ZArith String Ascii List.
From Stdlib Require Import Floats.PrimFloat.
From stdpp Require Import base gmap strings list.

Local Open Scope string_scope.
Local Open Scope list_scope.
Local Open Scope Z_scope.
Set Warnings "-register-all".

(** ** Python values *)

(** The values that travel through the layer: arguments, keyword mappings and
    responses.  A [dict] keeps insertion order, as Python's does. *)
Inductive value : Type :=
| VNone
| VBool (b : bool)
| VInt (z : Z)
| VFloat (f : float)
| VStr (s : string)
| VList (l : list value)
| VDict (d : list (string * value)).

Abbreviation dict := (list (string * value)).

(** [d[k]] as a lookup; [None] stands for [KeyError]. *)
Fixpoint dict_get (d : dict) (k : string) : option value :=
  match d with
  | [] => None
  | (k', v) :: d' => if String.eqb k' k then Some v else dict_get d' k
  end.

(** [d[k] = v]: overwrite in place when the key is there, append otherwise. *)
Fixpoint dict_set (d : dict) (k : string) (v : value) : dict :=
  match d with
  | [] => [(k, v)]
  | (k', v') :: d' =>
      if String.eqb k' k then (k', v) :: d' else (k', v') :: dict_set d' k v
  end.

Definition dict_keys (d : dict) : list string := map fst d.

(** The object a [niwrap] callable returns: a class name and its attributes. *)
Record PyObject : Type := mkObj {
  obj_class : string;
  obj_attrs : dict
}.

Definition hasattr (o : PyObject) (a : string) : bool :=
  match dict_get (obj_attrs o) a with Some _ => true | None => false end.

(** Three-argument [getattr(o, a, default)]. *)
Definition getattr_default (o : PyObject) (a : string) (dflt : value) : value :=
  match dict_get (obj_attrs o) a with Some v => v | None => dflt end.

(** ** Exceptions *)

Inductive exc_class : Type :=
| FileNotFoundError
| FileExistsError
| NotADirectoryError
| PermissionError
| NameError
| AttributeError
| RuntimeError
| OtherException (name : string)      (* any other subclass of Exception *)
| BaseExceptionOnly (name : string).  (* KeyboardInterrupt, CancelledError, ... *)

(** An exception instance: its class, [str(e)], and [e.__context__], which
    Python sets when an exception is raised while another is being handled. *)
Inductive exn : Type :=
| Exn (cls : exc_class) (msg : string) (context : option exn).

Definition exc_cls (e : exn) : exc_class := let 'Exn c _ _ := e in c.
Definition exc_str (e : exn) : string := let 'Exn _ m _ := e in m.
Definition exc_context (e : exn) : option exn := let 'Exn _ _ c := e in c.

(** What [except Exception] catches. *)
Definition is_Exception (e : exn) : bool :=
  match exc_cls e with
  | BaseExceptionOnly _ => false
  | _ => true
  end.

(** ** pathlib on POSIX *)

Module pathlib.

Definition sep : ascii := "/"%char.

(** [s.split("/")] *)
Fixpoint split (s : string) : list string :=
  match s with
  | EmptyString => [EmptyString]
  | String c s' =>
      if Ascii.eqb c sep then EmptyString :: split s'
      else match split s' with
           | [] => [String c EmptyString]
           | w :: ws => String c w :: ws
           end
  end.

Definition starts_with_sep (s : string) : bool :=
  match s with
  | String c _ => Ascii.eqb c sep
  | EmptyString => false
  end.

(** [posixpath.splitroot], the root only: one slash, except that exactly two
    leading slashes are kept. *)
Definition root_of (s : string) : string :=
  match s with
  | String c1 (String c2 (String c3 _)) =>
      if Ascii.eqb c1 sep then
        if Ascii.eqb c2 sep then (if Ascii.eqb c3 sep then "/" else "//")
        else "/"
      else ""
  | String c1 (String c2 EmptyString) =>
      if Ascii.eqb c1 sep then (if Ascii.eqb c2 sep then "//" else "/")
      else ""
  | String c1 EmptyString => if Ascii.eqb c1 sep then "/" else ""
  | EmptyString => ""
  end.

Definition keep_part (x : string) : bool :=
  negb (String.eqb x "") && negb (String.eqb x ".").

(** A parsed path: root and the list of its components. *)
Record PurePath : Type := mkPath {
  root : string;
  parts : list string
}.

(** [Path(s)] *)
Definition Path (s : string) : PurePath :=
  {| root := root_of s; parts := List.filter keep_part (split s) |}.

Fixpoint join_parts (l : list string) : string :=
  match l with
  | [] => ""
  | [x] => x
  | x :: l' => x +:+ "/" +:+ join_parts l'
  end.

(** [str(p)] *)
Definition str (p : PurePath) : string :=
  match root p, parts p with
  | EmptyString, [] => "."
  | r, l => r +:+ join_parts l
  end.

(** [p / s]: an absolute right operand replaces the left one. *)
Definition joinpath (p : PurePath) (s : string) : PurePath :=
  if starts_with_sep s then Path s
  else {| root := root p; parts := parts p ++ parts (Path s) |}.

(** [p.name] *)
Definition name (p : PurePath) : string := List.last (parts p) "".

(** [p.parent] *)
Definition parent (p : PurePath) : PurePath :=
  {| root := root p; parts := List.removelast (parts p) |}.

(** The proper ancestors that [mkdir(parents=True)] may have to create,
    outermost first. *)
Fixpoint proper_prefixes (l : list string) : list (list string) :=
  match l with
  | [] => []
  | x :: l' => [] :: map (cons x) (proper_prefixes l')
  end.

Definition ancestors (p : PurePath) : list PurePath :=
  map (mkPath (root p))
      (List.filter (fun l => negb (Nat.eqb (length l) 0)) (proper_prefixes (parts p))).

End pathlib.

Notation "p // s" := (pathlib.joinpath p s) (at level 40, left associativity).

(** ** The filesystem *)

Inductive node : Type := File | Dir.

(** Entries are keyed by the normalised path string [str(Path(s))].  A
    filesystem that is not [writable] refuses to create anything.  Looking a
    path up ([stat]) never fails: symbolic links, the working directory and
    search permissions are left out. *)
Record FS : Type := mkFS {
  entries : gmap string node;
  writable : bool
}.

Definition fs_exists (fs : FS) (p : pathlib.PurePath) : bool :=
  match entries fs !! pathlib.str p with Some _ => true | None => false end.

Definition fs_is_dir (fs : FS) (p : pathlib.PurePath) : bool :=
  match entries fs !! pathlib.str p with Some Dir => true | _ => false end.

Definition fs_is_file (fs : FS) (p : pathlib.PurePath) : bool :=
  match entries fs !! pathlib.str p with Some File => true | _ => false end.

Definition add_dir (m : gmap string node) (p : pathlib.PurePath) : gmap string node :=
  <[pathlib.str p := Dir]> m.

(** [p.mkdir(parents=True, exist_ok=True)]: nothing to do on a directory,
    [FileExistsError] on a file, [NotADirectoryError] when an ancestor is a
    file, [PermissionError] when nothing may be created; otherwise the path
    and its missing ancestors become directories. *)
Definition fs_mkdir (fs : FS) (p : pathlib.PurePath) : exn + FS :=
  match entries fs !! pathlib.str p with
  | Some Dir => inr fs
  | Some File =>
      inl (Exn FileExistsError ("[Errno 17] File exists: " +:+ pathlib.str p) None)
  | None =>
      if existsb (fs_is_file fs) (pathlib.ancestors p) then
        inl (Exn NotADirectoryError ("[Errno 20] Not a directory: " +:+ pathlib.str p) None)
      else if writable fs then
        inr {| entries := add_dir (foldl add_dir (entries fs) (pathlib.ancestors p)) p;
               writable := writable fs |}
      else
        inl (Exn PermissionError ("[Errno 13] Permission denied: " +:+ pathlib.str p) None)
  end.

(** [list(p.glob("*"))]: the entries directly below [p]. *)
Definition fs_glob_star (fs : FS) (p : pathlib.PurePath) : list pathlib.PurePath :=
  if fs_is_dir fs p then
    List.filter
      (fun q => bool_decide (pathlib.str (pathlib.parent q) = pathlib.str p)
                && negb (Nat.eqb (length (pathlib.parts q)) 0))
      (map (fun kv => pathlib.Path (fst kv)) (map_to_list (entries fs)))
  else [].

(** ** Effects: state, trace and exceptions *)

(** An f-string whose holes are not all strings is kept unrendered. *)
Inductive piece : Type :=
| Lit (s : string)
| Hole (v : value).

Inductive event : Type :=
| EInfo (msg : list piece)                       (* await ctx.info(...) *)
| EError (msg : list piece)                      (* await ctx.error(...) *)
| EPrint (msg : list piece)                      (* print(...) *)
| EMkdir (p : string)                            (* Path.mkdir was called *)
| ECall (callee : string) (kwargs : dict) (seen : FS).
                                                 (* niwrap callable, with the
                                                    filesystem it starts on *)

Record State : Type := mkState {
  st_fs : FS;
  st_trace : list event
}.

Inductive result (A : Type) : Type :=
| Return (a : A)
| Raise (e : exn).
Arguments Return {A} a.
Arguments Raise {A} e.

Definition M (A : Type) : Type := State -> result A * State.

Definition ret {A} (a : A) : M A := fun s => (Return a, s).

Definition bind {A B} (m : M A) (k : A -> M B) : M B :=
  fun s => match m s with
           | (Return a, s') => k a s'
           | (Raise e, s') => (Raise e, s')
           end.

Declare Scope py_scope.
Delimit Scope py_scope with py.
Notation "'let*' x := m 'in' k" := (bind m (fun x => k))
  (at level 10, x name, m at level 100, k at level 200) : py_scope.
Notation "m ;;; k" := (bind m (fun _ => k))
  (at level 100, k at level 200, right associativity) : py_scope.
Local Open Scope py_scope.

(** [raise cls(msg)] outside of any handler. *)
Definition raise {A} (cls : exc_class) (msg : string) : M A :=
  fun s => (Raise (Exn cls msg None), s).

(** [raise cls(msg)] inside [except ... as e]: Python records [e] as the
    new exception's [__context__]. *)
Definition raise_handling {A} (e : exn) (cls : exc_class) (msg : string) : M A :=
  fun s => (Raise (Exn cls msg (Some e)), s).

(** [try: body / except Exception as e: handler e] *)
Definition try_except {A} (body : M A) (handler : exn -> M A) : M A :=
  fun s => match body s with
           | (Return a, s') => (Return a, s')
           | (Raise e, s') =>
               if is_Exception e then handler e s' else (Raise e, s')
           end.

Definition emit (ev : event) : M unit :=
  fun s => (Return tt, {| st_fs := st_fs s; st_trace := st_trace s ++ [ev] |}).

(** The request context and [print] only record their message; they are
    taken not to raise. *)
Definition ctx_info (msg : list piece) : M unit := emit (EInfo msg).
Definition ctx_error (msg : list piece) : M unit := emit (EError msg).
Definition print (msg : list piece) : M unit := emit (EPrint msg).

(** [p.exists()] *)
Definition exists_ (p : pathlib.PurePath) : M bool :=
  fun s => (Return (fs_exists (st_fs s) p), s).

(** [p.mkdir(parents=True, exist_ok=True)] *)
Definition mkdir (p : pathlib.PurePath) : M unit :=
  fun s =>
    let tr := st_trace s ++ [EMkdir (pathlib.str p)] in
    match fs_mkdir (st_fs s) p with
    | inr fs' => (Return tt, {| st_fs := fs'; st_trace := tr |})
    | inl e => (Raise e, {| st_fs := st_fs s; st_trace := tr |})
    end.

(** [list(p.glob("*"))] *)
Definition glob_star (p : pathlib.PurePath) : M (list pathlib.PurePath) :=
  fun s => (Return (fs_glob_star (st_fs s) p), s).

(** [o.a]; a missing attribute raises [AttributeError]. *)
Definition getattr (o : PyObject) (a : string) : M value :=
  match dict_get (obj_attrs o) a with
  | Some v => ret v
  | None => raise AttributeError
              ("'" +:+ obj_class o +:+ "' object has no attribute '" +:+ a +:+ "'")
  end.

(** A read of a name that is bound nowhere. *)
Definition undefined_name {A} (x : string) : M A :=
  raise NameError ("name '" +:+ x +:+ "' is not defined").

(** The [niwrap] library as an oracle: the dotted name of the callable, its
    keyword arguments and the filesystem it runs on give an object or an
    exception, and the filesystem it leaves behind. *)
Definition Niwrap : Type := string -> dict -> FS -> (exn + PyObject) * FS.

Definition call (niwrap : Niwrap) (callee : string) (kwargs : dict) : M PyObject :=
  fun s =>
    let tr := st_trace s ++ [ECall callee kwargs (st_fs s)] in
    match niwrap callee kwargs (st_fs s) with
    | (inr o, fs') => (Return o, {| st_fs := fs'; st_trace := tr |})
    | (inl e, fs') => (Raise e, {| st_fs := fs'; st_trace := tr |})
    end.

(** ** Tool requests *)

(** One request per registered tool, with the arguments the caller may leave
    out as [None]. *)
Inductive ToolCall : Type :=
| BET (input_file : string) (output_prefix : option string)
      (fractional_intensity : option float) (generate_binary_mask : option bool)
| FAST (input_file : string) (output_prefix : option string)
       (tissue_classes : option Z)
| FLIRT (input_file reference_file : string) (output_file : option string)
        (dof : option Z)
| DWI2FOD (dwi_file response_file : string) (output_fod : option string)
          (algorithm : option string)
| RECON_ALL (input_file subject_id : string) (subjects_dir : option string).

(** A call starts on a filesystem with an empty trace. *)
Definition init (fs : FS) : State := {| st_fs := fs; st_trace := [] |}.

(** ** [mcp/src/server.py] *)

Definition nl : string := String (ascii_of_nat 10) EmptyString.

(** [sep.join(l)] *)
Fixpoint str_join (sep : string) (l : list string) : string :=
  match l with
  | [] => ""
  | [x] => x
  | x :: l' => x +:+ sep +:+ str_join sep l'
  end.

Module Server.

Section Tools.

Variable niwrap : Niwrap.

Definition fsl_bet_brain_extraction
    (input_file : string)
    (output_prefix : option string)
    (fractional_intensity : option float)
    (generate_binary_mask : option bool) : M dict :=
  let output_prefix := default "brain_extracted" output_prefix in
  let fractional_intensity := default 0.5%float fractional_intensity in
  let generate_binary_mask := default true generate_binary_mask in
  ctx_info [Lit "Starting brain extraction with BET on "; Hole (VStr input_file)];;;
  (* Validate inputs *)
  let input_path := pathlib.Path input_file in
  let* found := exists_ input_path in
  if negb found then
    raise FileNotFoundError ("Input file not found: " +:+ input_file)
  else
  try_except
    ((* Prepare output paths *)
     let output_dir := pathlib.Path "/Users/hp/Desktop/neurodesk/data/outputs" in
     mkdir output_dir;;;
     let brain_image := pathlib.str (output_dir // (output_prefix +:+ ".nii.gz")) in
     ctx_info [Lit "Running FSL BET with fractional intensity: ";
               Hole (VFloat fractional_intensity)];;;
     (* Execute BET using NiWrap *)
     let bet_params :=
       [("infile", VStr input_file);
        ("maskfile", VStr brain_image);
        ("fractional_intensity", VFloat fractional_intensity)] in
     let bet_params :=
       if generate_binary_mask then dict_set bet_params "binary_mask" (VBool true)
       else bet_params in
     let* result := call niwrap "fsl.bet" bet_params in
     let* outfile := getattr result "outfile" in
     let output_data :=
       [("brain_image", outfile);
        ("metadata", VDict [("tool", VStr "FSL BET");
                            ("parameters", VDict bet_params);
                            ("container", VStr "FSL Docker container")])] in
     let* output_data :=
       if generate_binary_mask && hasattr result "binary_mask" then
         let* mask := getattr result "binary_mask" in
         ret (dict_set output_data "brain_mask" mask)
       else ret output_data in
     ctx_info [Lit "Brain extraction completed successfully"];;;
     ret output_data)
    (fun e =>
       ctx_error [Lit ("BET processing failed: " +:+ exc_str e)];;;
       raise_handling e RuntimeError ("BET processing failed: " +:+ exc_str e)).

Definition fsl_fast_segmentation
    (input_file : string)
    (output_prefix : option string)
    (tissue_classes : option Z) : M dict :=
  let output_prefix := default "segmented" output_prefix in
  let tissue_classes := default 3 tissue_classes in
  ctx_info [Lit "Starting tissue segmentation with FAST on "; Hole (VStr input_file)];;;
  (* Validate inputs *)
  let input_path := pathlib.Path input_file in
  let* found := exists_ input_path in
  if negb found then
    raise FileNotFoundError ("Input file not found: " +:+ input_file)
  else
  try_except
    ((* Prepare output path *)
     let output_dir := pathlib.Path "/Users/hp/Desktop/neurodesk/data/outputs" in
     mkdir output_dir;;;
     ctx_info [Lit "Running FSL FAST with "; Hole (VInt tissue_classes);
               Lit " tissue classes"];;;
     (* Execute FAST using NiWrap *)
     let fast_params :=
       [("infile", VStr input_file);
        ("basename", VStr (pathlib.str (output_dir // output_prefix)));
        ("classes", VInt tissue_classes);
        ("bias_field", VBool true);
        ("probability_maps", VBool true)] in
     let* result := call niwrap "fsl.fast" fast_params in
     let* outfile := getattr result "outfile" in
     let output_data :=
       [("segmented_image", outfile);
        ("tissue_maps", getattr_default result "tissue_maps" (VList []));
        ("bias_field", getattr_default result "bias_field" VNone);
        ("metadata", VDict [("tool", VStr "FSL FAST");
                            ("parameters", VDict fast_params);
                            ("tissue_classes", VInt tissue_classes)])] in
     ctx_info [Lit "Tissue segmentation completed successfully"];;;
     ret output_data)
    (fun e =>
       ctx_error [Lit ("FAST processing failed: " +:+ exc_str e)];;;
       raise_handling e RuntimeError ("FAST processing failed: " +:+ exc_str e)).

Definition fsl_flirt_registration
    (input_file reference_file : string)
    (output_file : option string)
    (dof : option Z) : M dict :=
  let output_file := default "registered.nii.gz" output_file in
  let dof := default 12 dof in
  ctx_info [Lit "Starting registration with FLIRT: "; Hole (VStr input_file);
            Lit " -> "; Hole (VStr reference_file)];;;
  (* Validate inputs *)
  let input_path := pathlib.Path input_file in
  let ref_path := pathlib.Path reference_file in
  let* found := exists_ input_path in
  if negb found then
    raise FileNotFoundError ("Input file not found: " +:+ input_file)
  else
  let* found := exists_ ref_path in
  if negb found then
    raise FileNotFoundError ("Reference file not found: " +:+ reference_file)
  else
  try_except
    (ctx_info [Lit "Running FSL FLIRT with "; Hole (VInt dof);
               Lit " degrees of freedom"];;;
     (* Execute FLIRT using NiWrap *)
     let flirt_params :=
       [("infile", VStr input_file);
        ("reference", VStr reference_file);
        ("outfile", VStr output_file);
        ("dof", VInt dof);
        ("cost", VStr "corratio")] in
     let* result := call niwrap "fsl.flirt" flirt_params in
     let* outfile := getattr result "outfile" in
     let output_data :=
       [("registered_image", outfile);
        ("transformation_matrix", getattr_default result "omat" VNone);
        ("metadata", VDict [("tool", VStr "FSL FLIRT");
                            ("parameters", VDict flirt_params);
                            ("dof", VInt dof)])] in
     ctx_info [Lit "Registration completed successfully"];;;
     ret output_data)
    (fun e =>
       ctx_error [Lit ("FLIRT processing failed: " +:+ exc_str e)];;;
       raise_handling e RuntimeError ("FLIRT processing failed: " +:+ exc_str e)).

Definition mrtrix_dwi2fod
    (dwi_file response_file : string)
    (output_fod : option string)
    (algorithm : option string) : M dict :=
  let output_fod := default "wmfod.mif" output_fod in
  let algorithm := default "csd" algorithm in
  ctx_info [Lit "Starting FOD estimation with dwi2fod on "; Hole (VStr dwi_file)];;;
  (* Validate inputs *)
  let dwi_path := pathlib.Path dwi_file in
  let response_path := pathlib.Path response_file in
  let* found := exists_ dwi_path in
  if negb found then
    raise FileNotFoundError ("DWI file not found: " +:+ dwi_file)
  else
  let* found := exists_ response_path in
  if negb found then
    raise FileNotFoundError ("Response file not found: " +:+ response_file)
  else
  try_except
    (ctx_info [Lit "Running MRTrix3 dwi2fod with "; Hole (VStr algorithm);
               Lit " algorithm"];;;
     (* Execute dwi2fod using NiWrap *)
     let dwi2fod_params :=
       [("algorithm", VStr algorithm);
        ("dwi", VStr dwi_file);
        ("response", VStr response_file);
        ("fod", VStr output_fod)] in
     let* result := call niwrap "mrtrix3.dwi2fod" dwi2fod_params in
     let* fod := getattr result "fod" in
     let output_data :=
       [("fod_image", fod);
        ("metadata", VDict [("tool", VStr "MRTrix3 dwi2fod");
                            ("parameters", VDict dwi2fod_params);
                            ("algorithm", VStr algorithm)])] in
     ctx_info [Lit "FOD estimation completed successfully"];;;
     ret output_data)
    (fun e =>
       ctx_error [Lit ("dwi2fod processing failed: " +:+ exc_str e)];;;
       raise_handling e RuntimeError ("dwi2fod processing failed: " +:+ exc_str e)).

Definition freesurfer_recon_all
    (input_file subject_id : string)
    (subjects_dir : option string) : M dict :=
  let subjects_dir :=
    default "/Users/hp/Desktop/neurodesk/data/freesurfer_subjects" subjects_dir in
  ctx_info [Lit "Starting FreeSurfer recon-all for subject "; Hole (VStr subject_id)];;;
  (* Validate inputs *)
  let input_path := pathlib.Path input_file in
  let* found := exists_ input_path in
  if negb found then
    raise FileNotFoundError ("Input file not found: " +:+ input_file)
  else
  (* Create subjects directory *)
  let subjects_path := pathlib.Path subjects_dir in
  mkdir subjects_path;;;
  try_except
    (ctx_info [Lit "Running FreeSurfer recon-all (this may take several hours)"];;;
     (* Execute recon-all using NiWrap *)
     let recon_params :=
       [("input_file", VStr input_file);
        ("subject_id", VStr subject_id);
        ("subjects_dir", VStr subjects_dir);
        ("all", VBool true)] in
     let* result := call niwrap "freesurfer.recon_all" recon_params in
     (* FreeSurfer output structure *)
     let subject_dir := subjects_path // subject_id in
     let output_data :=
       [("subject_directory", VStr (pathlib.str subject_dir));
        ("surfaces", VDict
           [("left_pial", VStr (pathlib.str (subject_dir // "surf" // "lh.pial")));
            ("right_pial", VStr (pathlib.str (subject_dir // "surf" // "rh.pial")));
            ("left_white", VStr (pathlib.str (subject_dir // "surf" // "lh.white")));
            ("right_white", VStr (pathlib.str (subject_dir // "surf" // "rh.white")))]);
        ("volumes", VDict
           [("brain", VStr (pathlib.str (subject_dir // "mri" // "brain.mgz")));
            ("aseg", VStr (pathlib.str (subject_dir // "mri" // "aseg.mgz")));
            ("aparc", VStr (pathlib.str (subject_dir // "mri" // "aparc+aseg.mgz")))]);
        ("metadata", VDict [("tool", VStr "FreeSurfer recon-all");
                            ("subject_id", VStr subject_id);
                            ("subjects_dir", VStr subjects_dir)])] in
     ctx_info [Lit "FreeSurfer recon-all completed successfully"];;;
     ret output_data)
    (fun e =>
       ctx_error [Lit ("FreeSurfer recon-all failed: " +:+ exc_str e)];;;
       raise_handling e RuntimeError ("FreeSurfer recon-all failed: " +:+ exc_str e)).

(** The tool registry: a request runs the function registered for it. *)
Definition run (c : ToolCall) : M dict :=
  match c with
  | BET i p f m => fsl_bet_brain_extraction i p f m
  | FAST i p t => fsl_fast_segmentation i p t
  | FLIRT i r o d => fsl_flirt_registration i r o d
  | DWI2FOD d r o a => mrtrix_dwi2fod d r o a
  | RECON_ALL i s d => freesurfer_recon_all i s d
  end.

End Tools.

(** The resource [neuroimaging://workspace/{session_id}]. *)
Definition get_workspace_info (session_id : string) : M string :=
  let workspace_path := pathlib.Path ("/tmp/neuroimaging_workspace/" +:+ session_id) in
  let* found := exists_ workspace_path in
  if negb found then
    ret ("Workspace " +:+ session_id +:+ " not found")
  else
  let* files := glob_star workspace_path in
  let file_list := str_join nl (map (fun f => "- " +:+ pathlib.name f) files) in
  ret ("Workspace " +:+ session_id +:+ ":" +:+ nl +:+ "Files:" +:+ nl +:+ file_list).

Definition brain_extraction_guide : string :=
"
        Brain extraction is the first step in most neuroimaging analyses. Here's a typical workflow:

        1. Start with a T1-weighted anatomical image
        2. Use FSL BET with appropriate fractional intensity (0.3-0.7)
        3. Visual quality control of extraction results
        4. Proceed with further analysis on brain-extracted image

        Parameters to consider:
        - Lower fractional intensity (0.3) for more conservative extraction
        - Higher fractional intensity (0.7) for more aggressive extraction
        - Default (0.5) works well for most cases
        ".

Definition preprocessing_guide : string :=
"
        Standard T1 preprocessing pipeline:

        1. Brain extraction (BET)
        2. Tissue segmentation (FAST)
        3. Spatial normalization (FLIRT to MNI space)
        4. Quality control at each step

        This pipeline prepares data for group-level statistical analysis.
        ".

Definition diffusion_guide : string :=
"
        Diffusion MRI analysis workflow:

        1. Preprocessing: denoising, motion correction, eddy current correction
        2. Response function estimation
        3. Fiber orientation distribution estimation (dwi2fod)
        4. Tractography generation
        5. Connectome construction

        Requires DWI data with b-values and gradient directions.
        ".

Definition guides : list (string * string) :=
  [("brain_extraction", brain_extraction_guide);
   ("preprocessing", preprocessing_guide);
   ("diffusion", diffusion_guide)].

Definition unknown_analysis_type : string :=
  "Unknown analysis type. Available types: brain_extraction, preprocessing, diffusion".

(** [guides.get(k, dflt)] *)
Fixpoint guides_get (g : list (string * string)) (k dflt : string) : string :=
  match g with
  | [] => dflt
  | (k', v) :: g' => if String.eqb k' k then v else guides_get g' k dflt
  end.

Definition neuroimaging_analysis_guide (analysis_type : string) : string :=
  guides_get guides analysis_type unknown_analysis_type.

End Server.

(** ** [mcp/src/neuroimaging_functions.py] *)

(** [s.replace(old, new)] for a non-empty [old]: leftmost occurrences, not
    overlapping.  [skip] counts the characters of a match still to drop. *)
Fixpoint str_replace_from (old new : string) (skip : nat) (s : string) : string :=
  match s with
  | EmptyString => EmptyString
  | String c s' =>
      match skip with
      | S k => str_replace_from old new k s'
      | O =>
          if String.prefix old s then
            new +:+ str_replace_from old new (Nat.pred (String.length old)) s'
          else String c (str_replace_from old new O s')
      end
  end.

Definition str_replace (s old new : string) : string :=
  str_replace_from old new O s.

Module Raw.

Section Tools.

Variable niwrap : Niwrap.

Definition fsl_bet_brain_extraction_raw
    (input_file : string)
    (output_prefix : option string)
    (fractional_intensity : option float)
    (generate_binary_mask : option bool) : M dict :=
  let output_prefix := default "brain_extracted" output_prefix in
  let fractional_intensity := default 0.5%float fractional_intensity in
  let generate_binary_mask := default true generate_binary_mask in
  print [Lit "Starting brain extraction with BET on "; Hole (VStr input_file)];;;
  (* Validate inputs *)
  let input_path := pathlib.Path input_file in
  let* found := exists_ input_path in
  if negb found then
    raise FileNotFoundError ("Input file not found: " +:+ input_file)
  else
  try_except
    ((* Prepare output paths *)
     let output_dir := pathlib.Path "/Users/hp/Desktop/neurodesk/data/outputs" in
     mkdir output_dir;;;
     let brain_image := pathlib.str (output_dir // (output_prefix +:+ ".nii.gz")) in
     print [Lit "Running FSL BET with fractional intensity: ";
            Hole (VFloat fractional_intensity)];;;
     (* Execute BET using NiWrap *)
     let* result :=
       call niwrap "fsl.bet"
         [("infile", VStr input_file);
          ("maskfile", VStr brain_image);
          ("fractional_intensity", VFloat fractional_intensity);
          ("binary_mask", VBool generate_binary_mask)] in
     let* outfile := getattr result "outfile" in
     (* the function never binds bet_params *)
     let* bet_params := undefined_name "bet_params" in
     let output_data :=
       [("brain_image", outfile);
        ("metadata", VDict [("tool", VStr "FSL BET");
                            ("parameters", bet_params);
                            ("container", VStr "FSL Docker container")])] in
     let* output_data :=
       if generate_binary_mask && hasattr result "binary_mask" then
         let* mask := getattr result "binary_mask" in
         ret (dict_set output_data "brain_mask" mask)
       else ret output_data in
     print [Lit "Brain extraction completed successfully"];;;
     ret output_data)
    (fun e =>
       print [Lit ("BET processing failed: " +:+ exc_str e)];;;
       raise_handling e RuntimeError ("BET processing failed: " +:+ exc_str e)).

Definition fsl_fast_segmentation_raw
    (input_file : string)
    (output_prefix : option string)
    (tissue_classes : option Z) : M dict :=
  let output_prefix := default "segmented" output_prefix in
  let tissue_classes := default 3 tissue_classes in
  print [Lit "Starting tissue segmentation with FAST on "; Hole (VStr input_file)];;;
  (* Validate inputs *)
  let input_path := pathlib.Path input_file in
  let* found := exists_ input_path in
  if negb found then
    raise FileNotFoundError ("Input file not found: " +:+ input_file)
  else
  try_except
    ((* Prepare output path *)
     let output_dir := pathlib.Path "/Users/hp/Desktop/neurodesk/data/outputs" in
     mkdir output_dir;;;
     print [Lit "Running FSL FAST with "; Hole (VInt tissue_classes);
            Lit " tissue classes"];;;
     (* Execute FAST using NiWrap *)
     let* result :=
       call niwrap "fsl.fast"
         [("in_files", VList [VStr input_file]);
          ("number_classes", VInt tissue_classes);
          ("out_basename", VStr (pathlib.str (output_dir // output_prefix)));
          ("output_biasfield", VBool true);
          ("segments", VBool true)] in
     let* outfile := getattr result "outfile" in
     let tissue_maps := getattr_default result "tissue_maps" (VList []) in
     let bias_field := getattr_default result "bias_field" VNone in
     (* the function never binds fast_params *)
     let* fast_params := undefined_name "fast_params" in
     let output_data :=
       [("segmented_image", outfile);
        ("tissue_maps", tissue_maps);
        ("bias_field", bias_field);
        ("metadata", VDict [("tool", VStr "FSL FAST");
                            ("parameters", fast_params);
                            ("tissue_classes", VInt tissue_classes)])] in
     print [Lit "Tissue segmentation completed successfully"];;;
     ret output_data)
    (fun e =>
       print [Lit ("FAST processing failed: " +:+ exc_str e)];;;
       raise_handling e RuntimeError ("FAST processing failed: " +:+ exc_str e)).

Definition fsl_flirt_registration_raw
    (input_file reference_file : string)
    (output_file : option string)
    (dof : option Z) : M dict :=
  let output_file := default "registered.nii.gz" output_file in
  let dof := default 12 dof in
  print [Lit "Starting registration with FLIRT: "; Hole (VStr input_file);
         Lit " -> "; Hole (VStr reference_file)];;;
  (* Validate inputs *)
  let input_path := pathlib.Path input_file in
  let ref_path := pathlib.Path reference_file in
  let* found := exists_ input_path in
  if negb found then
    raise FileNotFoundError ("Input file not found: " +:+ input_file)
  else
  let* found := exists_ ref_path in
  if negb found then
    raise FileNotFoundError ("Reference file not found: " +:+ reference_file)
  else
  try_except
    (print [Lit "Running FSL FLIRT with "; Hole (VInt dof);
            Lit " degrees of freedom"];;;
     (* Execute FLIRT using NiWrap *)
     let* result :=
       call niwrap "fsl.flirt"
         [("in_file", VStr input_file);
          ("reference", VStr reference_file);
          ("out_file", VStr output_file);
          ("out_matrix_file", VStr (str_replace output_file ".nii.gz" ".mat"));
          ("dof", VInt dof);
          ("cost", VStr "corratio")] in
     let* outfile := getattr result "outfile" in
     let omat := getattr_default result "omat" VNone in
     (* the function never binds flirt_params *)
     let* flirt_params := undefined_name "flirt_params" in
     let output_data :=
       [("registered_image", outfile);
        ("transformation_matrix", omat);
        ("metadata", VDict [("tool", VStr "FSL FLIRT");
                            ("parameters", flirt_params);
                            ("dof", VInt dof)])] in
     print [Lit "Registration completed successfully"];;;
     ret output_data)
    (fun e =>
       print [Lit ("FLIRT processing failed: " +:+ exc_str e)];;;
       raise_handling e RuntimeError ("FLIRT processing failed: " +:+ exc_str e)).

Definition mrtrix_dwi2fod_raw
    (dwi_file response_file : string)
    (output_fod : option string)
    (algorithm : option string) : M dict :=
  let output_fod := default "wmfod.mif" output_fod in
  let algorithm := default "csd" algorithm in
  print [Lit "Starting FOD estimation with dwi2fod on "; Hole (VStr dwi_file)];;;
  (* Validate inputs *)
  let dwi_path := pathlib.Path dwi_file in
  let response_path := pathlib.Path response_file in
  let* found := exists_ dwi_path in
  if negb found then
    raise FileNotFoundError ("DWI file not found: " +:+ dwi_file)
  else
  let* found := exists_ response_path in
  if negb found then
    raise FileNotFoundError ("Response file not found: " +:+ response_file)
  else
  try_except
    (print [Lit "Running MRTrix3 dwi2fod with "; Hole (VStr algorithm);
            Lit " algorithm"];;;
     (* Execute dwi2fod using NiWrap *)
     let dwi2fod_params :=
       [("algorithm", VStr algorithm);
        ("dwi", VStr dwi_file);
        ("response", VStr response_file);
        ("fod", VStr output_fod)] in
     let* result := call niwrap "mrtrix.dwi2fod" dwi2fod_params in
     let* fod := getattr result "fod" in
     let output_data :=
       [("fod_image", fod);
        ("metadata", VDict [("tool", VStr "MRTrix3 dwi2fod");
                            ("parameters", VDict dwi2fod_params);
                            ("algorithm", VStr algorithm)])] in
     print [Lit "FOD estimation completed successfully"];;;
     ret output_data)
    (fun e =>
       print [Lit ("dwi2fod processing failed: " +:+ exc_str e)];;;
       raise_handling e RuntimeError ("dwi2fod processing failed: " +:+ exc_str e)).

Definition freesurfer_recon_all_raw
    (input_file subject_id : string)
    (subjects_dir : option string) : M dict :=
  let subjects_dir :=
    default "/Users/hp/Desktop/neurodesk/data/freesurfer_subjects" subjects_dir in
  print [Lit "Starting FreeSurfer recon-all for subject "; Hole (VStr subject_id)];;;
  (* Validate inputs *)
  let input_path := pathlib.Path input_file in
  let* found := exists_ input_path in
  if negb found then
    raise FileNotFoundError ("Input file not found: " +:+ input_file)
  else
  (* Create subjects directory *)
  let subjects_path := pathlib.Path subjects_dir in
  mkdir subjects_path;;;
  try_except
    (print [Lit "Running FreeSurfer recon-all (this may take several hours)"];;;
     (* Execute recon-all using NiWrap *)
     let recon_params :=
       [("input_file", VStr input_file);
        ("subject_id", VStr subject_id);
        ("subjects_dir", VStr subjects_dir);
        ("all", VBool true)] in
     let* result := call niwrap "freesurfer.recon_all" recon_params in
     (* FreeSurfer output structure *)
     let subject_dir := subjects_path // subject_id in
     let output_data :=
       [("subject_directory", VStr (pathlib.str subject_dir));
        ("surfaces", VDict
           [("left_pial", VStr (pathlib.str (subject_dir // "surf" // "lh.pial")));
            ("right_pial", VStr (pathlib.str (subject_dir // "surf" // "rh.pial")));
            ("left_white", VStr (pathlib.str (subject_dir // "surf" // "lh.white")));
            ("right_white", VStr (pathlib.str (subject_dir // "surf" // "rh.white")))]);
        ("volumes", VDict
           [("brain", VStr (pathlib.str (subject_dir // "mri" // "brain.mgz")));
            ("aseg", VStr (pathlib.str (subject_dir // "mri" // "aseg.mgz")));
            ("aparc", VStr (pathlib.str (subject_dir // "mri" // "aparc+aseg.mgz")))]);
        ("metadata", VDict [("tool", VStr "FreeSurfer recon-all");
                            ("subject_id", VStr subject_id);
                            ("subjects_dir", VStr subjects_dir)])] in
     print [Lit "FreeSurfer recon-all completed successfully"];;;
     ret output_data)
    (fun e =>
       print [Lit ("FreeSurfer recon-all failed: " +:+ exc_str e)];;;
       raise_handling e RuntimeError ("FreeSurfer recon-all failed: " +:+ exc_str e)).

Definition run (c : ToolCall) : M dict :=
  match c with
  | BET i p f m => fsl_bet_brain_extraction_raw i p f m
  | FAST i p t => fsl_fast_segmentation_raw i p t
  | FLIRT i r o d => fsl_flirt_registration_raw i r o d
  | DWI2FOD d r o a => mrtrix_dwi2fod_raw d r o a
  | RECON_ALL i s d => freesurfer_recon_all_raw i s d
  end.

End Tools.

End Raw.

(** ** [data/create_test_data.py]: the directory layout *)

(** [for x in l: body(x)] *)
Fixpoint for_each {A : Type} (l : list A) (body : A -> M unit) : M unit :=
  match l with
  | [] => ret tt
  | x :: l' => body x;;; for_each l' body
  end.

Module CreateTestData.

Definition directories : list string :=
  ["/Users/hp/Desktop/neurodesk/data/t1_structural";
   "/Users/hp/Desktop/neurodesk/data/diffusion";
   "/Users/hp/Desktop/neurodesk/data/templates";
   "/Users/hp/Desktop/neurodesk/data/freesurfer_subjects";
   "/Users/hp/Desktop/neurodesk/data/outputs"].

Definition create_directory_structure : M unit :=
  for_each directories
    (fun directory =>
       mkdir (pathlib.Path directory);;;
       print [Lit "âœ“ Created directory: "; Hole (VStr directory)]).

End CreateTestData.

(** ** [mcp/test_tools.py]: the tool tests *)

(** The name Python prints for a value's type. *)
Definition type_name (v : value) : string :=
  match v with
  | VNone => "NoneType"
  | VBool _ => "bool"
  | VInt _ => "int"
  | VFloat _ => "float"
  | VStr _ => "str"
  | VList _ => "list"
  | VDict _ => "dict"
  end.

(** [Path(v)] for a value that need not be a string. *)
Definition Path_of (v : value) : M pathlib.PurePath :=
  match v with
  | VStr s => ret (pathlib.Path s)
  | _ => raise (OtherException "TypeError")
           ("expected str, bytes or os.PathLike object, not " +:+ type_name v)
  end.

Module TestTools.

Section Tests.

Variable niwrap : Niwrap.

(** [traceback.format_exc()] for the exception being handled. *)
Variable format_exc : exn -> string.

(** [Path(p).stat().st_size], and [f"{size / (1024 * 1024):.1f}"]. *)
Variable st_size : FS -> string -> Z.
Variable format_mb : Z -> string.

Definition t1_file : string :=
  "/Users/hp/Desktop/neurodesk/data/t1_structural/synthetic_t1.nii.gz".
Definition mni_file : string :=
  "/Users/hp/Desktop/neurodesk/data/templates/synthetic_mni.nii.gz".
Definition dwi_file : string :=
  "/Users/hp/Desktop/neurodesk/data/diffusion/synthetic_dwi.nii.gz".
Definition response_file : string :=
  "/Users/hp/Desktop/neurodesk/data/diffusion/synthetic_response.txt".
Definition bet_output : string :=
  "/Users/hp/Desktop/neurodesk/data/outputs/test_brain_extracted.nii.gz".

(** The imports at the head of each [try] are taken to succeed. *)
Definition test_fsl_bet : M bool :=
  print [Lit (nl +:+ "🧠 Testing FSL BET Brain Extraction...")];;;
  try_except
    (let input_file := t1_file in
     (* Check if input file exists *)
     let* found := exists_ (pathlib.Path input_file) in
     if negb found then
       print [Lit "❌ Input file not found: "; Hole (VStr input_file)];;;
       ret false
     else
     print [Lit "📁 Input: "; Hole (VStr input_file)];;;
     let* result :=
       Raw.fsl_bet_brain_extraction_raw niwrap input_file
         (Some "test_brain_extracted") (Some 0.5%float) (Some true) in
     print [Lit "✅ BET completed successfully!"];;;
     print [Lit "📊 Result: "; Hole (VDict result)];;;
     (* Check if output files exist *)
     (match dict_get result "brain_image" with
      | Some brain_file =>
          let* brain_path := Path_of brain_file in
          let* made := exists_ brain_path in
          if made then print [Lit "✅ Brain image created: "; Hole brain_file]
          else print [Lit "⚠️  Brain image not found: "; Hole brain_file]
      | None => ret tt
      end);;;
     ret true)
    (fun e =>
       print [Lit ("❌ BET test failed: " +:+ exc_str e)];;;
       print [Lit ("🔍 Error details:" +:+ nl +:+ format_exc e)];;;
       ret false).

Definition test_fsl_fast : M bool :=
  print [Lit (nl +:+ "🔬 Testing FSL FAST Tissue Segmentation...")];;;
  try_except
    ((* Use BET output as input (should exist from previous test) *)
     let input_file := bet_output in
     (* If BET output doesn't exist, use original T1 *)
     let* found := exists_ (pathlib.Path input_file) in
     let input_file := if negb found then t1_file else input_file in
     let* found := exists_ (pathlib.Path input_file) in
     if negb found then
       print [Lit "❌ Input file not found: "; Hole (VStr input_file)];;;
       ret false
     else
     print [Lit "📁 Input: "; Hole (VStr input_file)];;;
     let* result :=
       Raw.fsl_fast_segmentation_raw niwrap input_file
         (Some "test_segmented") (Some 3) in
     print [Lit "✅ FAST completed successfully!"];;;
     print [Lit "📊 Result: "; Hole (VDict result)];;;
     ret true)
    (fun e =>
       print [Lit ("❌ FAST test failed: " +:+ exc_str e)];;;
       print [Lit ("🔍 Error details:" +:+ nl +:+ format_exc e)];;;
       ret false).

Definition test_fsl_flirt : M bool :=
  print [Lit (nl +:+ "🎯 Testing FSL FLIRT Registration...")];;;
  try_except
    ((* Use brain extracted image if available, otherwise original T1 *)
     let input_file := bet_output in
     let* found := exists_ (pathlib.Path input_file) in
     let input_file := if negb found then t1_file else input_file in
     let reference_file := mni_file in
     (* Check inputs *)
     let* found := exists_ (pathlib.Path input_file) in
     if negb found then
       print [Lit "❌ Input file not found: "; Hole (VStr input_file)];;;
       ret false
     else
     let* found := exists_ (pathlib.Path reference_file) in
     if negb found then
       print [Lit "❌ Reference file not found: "; Hole (VStr reference_file)];;;
       ret false
     else
     print [Lit "📁 Input: "; Hole (VStr input_file)];;;
     print [Lit "📁 Reference: "; Hole (VStr reference_file)];;;
     let* result :=
       Raw.fsl_flirt_registration_raw niwrap input_file reference_file
         (Some "/Users/hp/Desktop/neurodesk/data/outputs/test_registered.nii.gz")
         (Some 12) in
     print [Lit "✅ FLIRT completed successfully!"];;;
     print [Lit "📊 Result: "; Hole (VDict result)];;;
     ret true)
    (fun e =>
       print [Lit ("❌ FLIRT test failed: " +:+ exc_str e)];;;
       print [Lit ("🔍 Error details:" +:+ nl +:+ format_exc e)];;;
       ret false).

Definition test_mrtrix_dwi2fod : M bool :=
  print [Lit (nl +:+ "🌐 Testing MRTrix3 FOD Estimation...")];;;
  try_except
    ((* Check inputs *)
     let* found := exists_ (pathlib.Path dwi_file) in
     if negb found then
       print [Lit "❌ DWI file not found: "; Hole (VStr dwi_file)];;;
       ret false
     else
     let* found := exists_ (pathlib.Path response_file) in
     if negb found then
       print [Lit "❌ Response file not found: "; Hole (VStr response_file)];;;
       ret false
     else
     print [Lit "📁 DWI: "; Hole (VStr dwi_file)];;;
     print [Lit "📁 Response: "; Hole (VStr response_file)];;;
     let* result :=
       Raw.mrtrix_dwi2fod_raw niwrap dwi_file response_file
         (Some "/Users/hp/Desktop/neurodesk/data/outputs/test_wmfod.mif")
         (Some "csd") in
     print [Lit "✅ MRTrix3 dwi2fod completed successfully!"];;;
     print [Lit "📊 Result: "; Hole (VDict result)];;;
     ret true)
    (fun e =>
       print [Lit ("❌ MRTrix3 test failed: " +:+ exc_str e)];;;
       print [Lit ("🔍 Error details:" +:+ nl +:+ format_exc e)];;;
       ret false).

Definition test_freesurfer_recon_all : M bool :=
  print [Lit (nl +:+ "🧬 Testing FreeSurfer Recon-all (setup only - full run takes hours)...")];;;
  try_except
    (let input_file := t1_file in
     let* found := exists_ (pathlib.Path input_file) in
     if negb found then
       print [Lit "❌ Input file not found: "; Hole (VStr input_file)];;;
       ret false
     else
     print [Lit "📁 Input: "; Hole (VStr input_file)];;;
     print [Lit "⚠️  NOTE: This is a setup test only. Full FreeSurfer takes 2-8 hours!"];;;
     (* We'll just test the function setup, not run the full pipeline *)
     print [Lit "✅ FreeSurfer function is available and parameters are valid"];;;
     print [Lit "🔍 To run full test, execute the function manually (it takes hours)"];;;
     ret true)
    (fun e =>
       print [Lit ("❌ FreeSurfer test failed: " +:+ exc_str e)];;;
       print [Lit ("🔍 Error details:" +:+ nl +:+ format_exc e)];;;
       ret false).

Definition test_files : list string :=
  [t1_file; mni_file; dwi_file; response_file].

(** One round of the loop of [check_test_data], on the flag so far. *)
Definition check_one (all_found : bool) (test_file : string) : M bool :=
  let* found := exists_ (pathlib.Path test_file) in
  if found then
    let* size := (fun s => (Return (st_size (st_fs s) test_file), s)) in
    print [Lit "✅ "; Hole (VStr (pathlib.name (pathlib.Path test_file)));
           Lit " ("; Lit (format_mb size); Lit " MB)"];;;
    ret all_found
  else
    print [Lit "❌ Missing: "; Hole (VStr test_file)];;;
    ret false.

Fixpoint check_all (all_found : bool) (l : list string) : M bool :=
  match l with
  | [] => ret all_found
  | test_file :: l' =>
      let* all_found := check_one all_found test_file in
      check_all all_found l'
  end.

Definition check_test_data : M bool :=
  print [Lit "📁 Checking test data availability..."];;;
  check_all true test_files.

End Tests.

End TestTools.

(** ** Vocabulary of the properties *)

(** The name each tool records in its metadata. *)
Definition tool_name (c : ToolCall) : string :=
  match c with
  | BET _ _ _ _ => "FSL BET"
  | FAST _ _ _ => "FSL FAST"
  | FLIRT _ _ _ _ => "FSL FLIRT"
  | DWI2FOD _ _ _ _ => "MRTrix3 dwi2fod"
  | RECON_ALL _ _ _ => "FreeSurfer recon-all"
  end.

(** The required input paths of a request, each under the name its error
    message uses, in the order they are checked. *)
Definition required_inputs (c : ToolCall) : list (string * string) :=
  match c with
  | BET i _ _ _ => [("Input file", i)]
  | FAST i _ _ => [("Input file", i)]
  | FLIRT i r _ _ => [("Input file", i); ("Reference file", r)]
  | DWI2FOD d r _ _ => [("DWI file", d); ("Response file", r)]
  | RECON_ALL i _ _ => [("Input file", i)]
  end.

Definition path_exists (fs : FS) (p : string) : bool :=
  fs_exists fs (pathlib.Path p).

Definition inputs_exist (fs : FS) (c : ToolCall) : bool :=
  forallb (fun lp => path_exists fs (snd lp)) (required_inputs c).

(** The directory a tool creates, if it creates one. *)
Definition created_dir (c : ToolCall) : option pathlib.PurePath :=
  match c with
  | BET _ _ _ _ | FAST _ _ _ =>
      Some (pathlib.Path "/Users/hp/Desktop/neurodesk/data/outputs")
  | RECON_ALL _ _ d =>
      Some (pathlib.Path
              (default "/Users/hp/Desktop/neurodesk/data/freesurfer_subjects" d))
  | FLIRT _ _ _ _ | DWI2FOD _ _ _ _ => None
  end.

(** The text put in front of [str(e)] by a tool's exception handler. *)
Definition failure_prefix (c : ToolCall) : string :=
  match c with
  | BET _ _ _ _ => "BET processing failed: "
  | FAST _ _ _ => "FAST processing failed: "
  | FLIRT _ _ _ _ => "FLIRT processing failed: "
  | DWI2FOD _ _ _ _ => "dwi2fod processing failed: "
  | RECON_ALL _ _ _ => "FreeSurfer recon-all failed: "
  end.

(** The wrapper a handler raises for the exception [cause] it caught. *)
Definition wrapped (c : ToolCall) (cause : exn) : exn :=
  Exn RuntimeError (failure_prefix c +:+ exc_str cause) (Some cause).

(** The collaborator invocations recorded in a trace. *)
Fixpoint calls_of (tr : list event) : list (string * dict * FS) :=
  match tr with
  | [] => []
  | ECall callee kwargs seen :: tr' => (callee, kwargs, seen) :: calls_of tr'
  | _ :: tr' => calls_of tr'
  end.

(** The directory creations recorded in a trace. *)
Fixpoint mkdirs_of (tr : list event) : list string :=
  match tr with
  | [] => []
  | EMkdir p :: tr' => p :: mkdirs_of tr'
  | _ :: tr' => mkdirs_of tr'
  end.

(** A field of the response's metadata record. *)
Definition metadata (resp : dict) (k : string) : option value :=
  match dict_get resp "metadata" with
  | Some (VDict m) => dict_get m k
  | _ => None
  end.

Definition metadata_keys (resp : dict) : list string :=
  match dict_get resp "metadata" with
  | Some (VDict m) => dict_keys m
  | _ => []
  end.

(** [p] extended by the components [l]. *)
Definition under (p : pathlib.PurePath) (l : list string) : pathlib.PurePath :=
  pathlib.mkPath (pathlib.root p) (pathlib.parts p ++ l).

(** The three raw functions that talk to FSL, and the name each reads for
    its metadata. *)
Definition is_fsl (c : ToolCall) : bool :=
  match c with
  | BET _ _ _ _ | FAST _ _ _ | FLIRT _ _ _ _ => true
  | DWI2FOD _ _ _ _ | RECON_ALL _ _ _ => false
  end.

Definition raw_parameters_name (c : ToolCall) : string :=
  match c with
  | BET _ _ _ _ => "bet_params"
  | FAST _ _ _ => "fast_params"
  | FLIRT _ _ _ _ => "flirt_params"
  | DWI2FOD _ _ _ _ => "dwi2fod_params"
  | RECON_ALL _ _ _ => "recon_params"
  end.

(** ** Sample worlds *)

(** A small data directory with the inputs of every tool. *)
Definition fs_demo : FS :=
  {| entries :=
       list_to_map
         [("/data", Dir);
          ("/data/t1.nii.gz", File);
          ("/data/ref.nii.gz", File);
          ("/data/dwi.mif", File);
          ("/data/response.txt", File);
          ("/tmp/neuroimaging_workspace/s1", Dir);
          ("/tmp/neuroimaging_workspace/s1/brain.nii.gz", File)];
     writable := true |}.

(** The same directory on a medium that cannot be written. *)
Definition fs_readonly : FS :=
  {| entries := entries fs_demo; writable := false |}.

(** A collaborator that answers every call with the usual attributes and
    leaves the filesystem alone. *)
Definition niwrap_ok : Niwrap :=
  fun _ _ fs =>
    (inr {| obj_class := "Outputs";
            obj_attrs := [("outfile", VStr "/data/out.nii.gz");
                          ("fod", VStr "/data/wmfod.mif")] |}, fs).

(** A collaborator that answers with an object without attributes. *)
Definition niwrap_bare : Niwrap :=
  fun _ _ fs => (inr {| obj_class := "Outputs"; obj_attrs := [] |}, fs).

(** A collaborator whose container never starts. *)
Definition docker_down : exn :=
  Exn (OtherException "StyxRuntimeError") "docker: command not found" None.

Definition niwrap_down : Niwrap := fun _ _ fs => (inl docker_down, fs).

(** ** Vocabulary of the further properties *)

(** The [niwrap] callable a server tool invokes. *)
Definition server_callee (c : ToolCall) : string :=
  match c with
  | BET _ _ _ _ => "fsl.bet"
  | FAST _ _ _ => "fsl.fast"
  | FLIRT _ _ _ _ => "fsl.flirt"
  | DWI2FOD _ _ _ _ => "mrtrix3.dwi2fod"
  | RECON_ALL _ _ _ => "freesurfer.recon_all"
  end.

(** The attribute of the collaborator's result a tool cannot do without. *)
Definition required_attr (c : ToolCall) : option string :=
  match c with
  | BET _ _ _ _ | FAST _ _ _ | FLIRT _ _ _ _ => Some "outfile"
  | DWI2FOD _ _ _ _ => Some "fod"
  | RECON_ALL _ _ _ => None
  end.

(** The key under which a response carries that attribute. *)
Definition primary_key (c : ToolCall) : string :=
  match c with
  | BET _ _ _ _ => "brain_image"
  | FAST _ _ _ => "segmented_image"
  | FLIRT _ _ _ _ => "registered_image"
  | DWI2FOD _ _ _ _ => "fod_image"
  | RECON_ALL _ _ _ => "subject_directory"
  end.

(** The keys of a response, in order, without BET's optional mask. *)
Definition response_keys (c : ToolCall) : list string :=
  match c with
  | BET _ _ _ _ => ["brain_image"; "metadata"]
  | FAST _ _ _ => ["segmented_image"; "tissue_maps"; "bias_field"; "metadata"]
  | FLIRT _ _ _ _ => ["registered_image"; "transformation_matrix"; "metadata"]
  | DWI2FOD _ _ _ _ => ["fod_image"; "metadata"]
  | RECON_ALL _ _ _ => ["subject_directory"; "surfaces"; "volumes"; "metadata"]
  end.

(** A server event as the raw functions report it: on standard output. *)
Definition as_print (ev : event) : event :=
  match ev with
  | EInfo msg | EError msg => EPrint msg
  | _ => ev
  end.

(** [old in s] *)
Fixpoint occurs_in (old s : string) : bool :=
  match s with
  | EmptyString => String.prefix old s
  | String _ s' => String.prefix old s || occurs_in old s'
  end.

(** No character of [s] is a dot. *)
Fixpoint no_dot (s : string) : bool :=
  match s with
  | EmptyString => true
  | String c s' => negb (Ascii.eqb c "."%char) && no_dot s'
  end.

(** A filesystem on which the directory layout is in place. *)
Definition fs_prepared : FS :=
  {| entries :=
       list_to_map
         [("/Users/hp/Desktop/neurodesk/data/t1_structural", Dir);
          ("/Users/hp/Desktop/neurodesk/data/diffusion", Dir);
          ("/Users/hp/Desktop/neurodesk/data/templates", Dir);
          ("/Users/hp/Desktop/neurodesk/data/freesurfer_subjects", Dir);
          ("/Users/hp/Desktop/neurodesk/data/outputs", Dir);
          ("/Users/hp/Desktop/neurodesk/data/t1_structural/synthetic_t1.nii.gz", File);
          ("/Users/hp/Desktop/neurodesk/data/templates/synthetic_mni.nii.gz", File);
          ("/Users/hp/Desktop/neurodesk/data/diffusion/synthetic_dwi.nii.gz", File);
          ("/Users/hp/Desktop/neurodesk/data/diffusion/synthetic_response.txt", File)];
     writable := true |}.

(** An empty disk that can be written. *)
Definition fs_empty : FS := {| entries := ∅; writable := true |}.

(** A collaborator that raises what no [except Exception] catches. *)
Definition interrupted : exn :=
  Exn (BaseExceptionOnly "KeyboardInterrupt") "" None.

Definition niwrap_interrupted : Niwrap := fun _ _ fs => (inl interrupted, fs).

(** * Properties *)

Example Path_str_examples :
  pathlib.str (pathlib.Path "/data//subjects/") = "/data/subjects"
  /\ pathlib.str (pathlib.Path "") = "."
  /\ pathlib.str (pathlib.Path "//a/./b") = "//a/b"
  /\ pathlib.str (pathlib.Path "///a") = "/a"
  /\ pathlib.str (pathlib.Path "a/b" // "c.nii.gz") = "a/b/c.nii.gz"
  /\ pathlib.str (pathlib.Path "/a" // "/b") = "/b"
  /\ map pathlib.str (pathlib.ancestors (pathlib.Path "/a/b/c")) = ["/a"; "/a/b"].
Proof. repeat split; reflexivity. Qed.

Example str_replace_examples :
  str_replace "registered.nii.gz" ".nii.gz" ".mat" = "registered.mat"
  /\ str_replace "a.nii.gz.nii.gz" ".nii.gz" ".mat" = "a.mat.mat"
  /\ str_replace "out.nii" ".nii.gz" ".mat" = "out.nii".
Proof. repeat split; reflexivity. Qed.

(** Unfolding the monad: one step of a tool's body. *)
Ltac unfold_tools :=
  cbv beta iota zeta delta
    [Server.run Server.fsl_bet_brain_extraction Server.fsl_fast_segmentation
     Server.fsl_flirt_registration Server.mrtrix_dwi2fod
     Server.freesurfer_recon_all
     Raw.run Raw.fsl_bet_brain_extraction_raw Raw.fsl_fast_segmentation_raw
     Raw.fsl_flirt_registration_raw Raw.mrtrix_dwi2fod_raw
     Raw.freesurfer_recon_all_raw
     bind ret raise raise_handling try_except emit ctx_info ctx_error print
     exists_ mkdir call undefined_name init st_fs st_trace negb].

Section ServerProperties.

Variable niwrap : Niwrap.

Ltac case_step :=
  match goal with
  | |- context [fs_exists ?fs ?p] => destruct (fs_exists fs p) eqn:?
  | |- context [fs_mkdir ?fs ?p] => destruct (fs_mkdir fs p) as [?e|?fs'] eqn:?
  | |- context [niwrap ?c ?k ?f] =>
      destruct (niwrap c k f) as [[?e|?o] ?fs''] eqn:?
  | |- context [is_Exception ?e] => destruct (is_Exception e) eqn:?
  | |- context [dict_get (obj_attrs ?o) ?a] =>
      destruct (dict_get (obj_attrs o) a) eqn:?
  end.

Ltac run_cases :=
  unfold_tools; unfold getattr, hasattr, path_exists in *;
  cbn [default from_option id dict_set String.eqb Ascii.eqb Bool.eqb];
  repeat (cbn [is_Exception exc_cls]; case_step; unfold_tools).

Ltac name_input :=
  match goal with
  | |- context [In _ ((?l, ?p) :: _)] =>
      exists l, p; eexists;
      split; [simpl; auto | split; [assumption | reflexivity]]
  | |- context [In _ (_ :: (?l, ?p) :: _)] =>
      exists l, p; eexists;
      split; [simpl; auto | split; [assumption | reflexivity]]
  end.

(** *** Directory creation *)

Lemma fs_mkdir_is_dir fs p fs' :
  fs_mkdir fs p = inr fs' -> fs_is_dir fs' p = true.
Proof.
  unfold fs_mkdir, fs_is_dir.
  destruct (entries fs !! pathlib.str p) as [[|]|] eqn:E; try discriminate.
  - intros [= <-]. now rewrite E.
  - destruct (existsb _ _); try discriminate.
    destruct (writable fs); try discriminate.
    intros [= <-]. simpl. unfold add_dir at 1. now rewrite lookup_insert_eq.
Qed.

Lemma fs_mkdir_raises_Exception fs p e :
  fs_mkdir fs p = inl e -> is_Exception e = true.
Proof.
  unfold fs_mkdir.
  destruct (entries fs !! pathlib.str p) as [[|]|]; try discriminate;
    [|destruct (existsb _ _); [|destruct (writable fs); try discriminate]];
    now intros [= <-].
Qed.

(** *** Validation *)

(** C1.  When a required input path of a tool call does not exist, the call
    raises [FileNotFoundError] whose message names a missing path (the first
    one checked) by its label and location.  The filesystem is the one the
    call started on and the trace holds the opening [ctx.info] only: no
    directory was created and the collaborator was not invoked. *)
Theorem missing_input_fails_first
    (c : ToolCall) (fs : FS) (label0 p0 : string) :
  In (label0, p0) (required_inputs c) ->
  path_exists fs p0 = false ->
  exists label p msg,
    In (label, p) (required_inputs c)
    /\ path_exists fs p = false
    /\ Server.run niwrap c (init fs) =
         (Raise (Exn FileNotFoundError (label +:+ " not found: " +:+ p) None),
          {| st_fs := fs; st_trace := [EInfo msg] |}).
Proof.
  intros Hin Hmiss. unfold path_exists in *.
  destruct c; simpl in Hin; simpl required_inputs;
    repeat match goal with
           | H : _ \/ _ |- _ => destruct H
           | H : False |- _ => destruct H
           | H : (_, _) = (_, _) |- _ => inversion H; subst; clear H
           end;
    unfold_tools;
    repeat (match goal with
            | |- context [fs_exists ?f ?p] => destruct (fs_exists f p) eqn:?
            end; unfold_tools);
    try congruence; name_input.
Qed.

(** *** Metadata *)

(** C2, as the code has it.  A successful call made exactly one collaborator
    invocation and its metadata names the tool.  For BET, FAST, FLIRT and
    dwi2fod the metadata's [parameters] is the keyword mapping of that
    invocation; recon-all's metadata has no [parameters]: it holds [tool],
    [subject_id] and [subjects_dir], the last two as they were passed. *)
Theorem metadata_records_tool_and_call
    (c : ToolCall) (fs : FS) (resp : dict) (st' : State) :
  Server.run niwrap c (init fs) = (Return resp, st') ->
  metadata resp "tool" = Some (VStr (tool_name c))
  /\ exists callee kw seen,
       calls_of (st_trace st') = [(callee, kw, seen)]
       /\ match c with
          | RECON_ALL _ _ _ =>
              metadata_keys resp = ["tool"; "subject_id"; "subjects_dir"]
              /\ metadata resp "subject_id" = dict_get kw "subject_id"
              /\ metadata resp "subjects_dir" = dict_get kw "subjects_dir"
          | _ => metadata resp "parameters" = Some (VDict kw)
          end.
Proof.
  destruct c as [i p f [[|]|]|i p t|i r o d|d r o a|i s d];
    run_cases; intros [= <- <-]; (split; [reflexivity|]);
    do 3 eexists; (split; [reflexivity|]); repeat split; reflexivity.
Qed.

(** *** Error wrapping *)

(** C3, as the code has it.  Once validation has passed, what is raised
    inside a tool's [try] block is re-raised as [RuntimeError] with the
    tool's prefix in front of [str(e)] and the cause kept as [__context__]:
    the directory creation of BET and FAST, and any [Exception] of the
    collaborator in all five tools.  recon-all creates its directory before
    the [try], so that error reaches the caller as it is. *)
Theorem failures_inside_try_are_wrapped (c : ToolCall) (fs : FS) :
  inputs_exist fs c = true ->
  (forall d e,
      created_dir c = Some d -> fs_mkdir fs d = inl e ->
      fst (Server.run niwrap c (init fs)) =
        Raise (match c with RECON_ALL _ _ _ => e | _ => wrapped c e end))
  /\ (forall r st' callee kw seen e fs2,
        Server.run niwrap c (init fs) = (r, st') ->
        In (callee, kw, seen) (calls_of (st_trace st')) ->
        niwrap callee kw seen = (inl e, fs2) ->
        is_Exception e = true ->
        r = Raise (wrapped c e)).
Proof.
  intros Hin. split.
  - intros d e Hd Hmk.
    destruct c as [i p f m|i p t|i r o a|dw r o a|i s sd];
      simpl in Hd; inversion Hd; subst; clear Hd;
      unfold inputs_exist in Hin; simpl in Hin;
      rewrite ?andb_true_r in Hin; unfold path_exists in Hin;
      unfold_tools; rewrite Hin; unfold_tools; rewrite Hmk;
      rewrite ?(fs_mkdir_raises_Exception _ _ _ Hmk); reflexivity.
  - intros r st' callee kw seen e fs2.
    destruct c as [i p f [[|]|]|i p t|i r0 o a|dw r0 o a|i s sd];
      run_cases; intros [= <- <-]; simpl;
      try (intros []; fail);
      intros [[= <- <- <-]|[]]; intros Hn; intros He;
      unfold wrapped, failure_prefix; congruence.
Qed.

(** C4.  The raw BET, FAST and FLIRT functions never return.  Whenever the
    collaborator was invoked and returned an object, the function still
    raises the wrapped [RuntimeError]: building the metadata reads a name
    that is bound nowhere ([NameError]), unless reading [result.outfile]
    has already failed ([AttributeError]). *)
Theorem raw_fsl_functions_never_return (c : ToolCall) (fs : FS) :
  is_fsl c = true ->
  exists e st',
    Raw.run niwrap c (init fs) = (Raise e, st')
    /\ forall callee kw seen o fs2,
         In (callee, kw, seen) (calls_of (st_trace st')) ->
         niwrap callee kw seen = (inr o, fs2) ->
         e = wrapped c
               (if hasattr o "outfile" then
                  Exn NameError
                    ("name '" +:+ raw_parameters_name c +:+ "' is not defined")
                    None
                else
                  Exn AttributeError
                    ("'" +:+ obj_class o +:+ "' object has no attribute 'outfile'")
                    None).
Proof.
  intros Hc.
  destruct c as [i p f m|i p t|i r0 o a|dw r0 o a|i s sd]; try discriminate;
    run_cases; do 2 eexists; (split; [reflexivity|]);
    intros callee kw seen ob fs2; simpl;
    try (intros []; fail);
    intros [[= <- <- <-]|[]]; intros Hn;
    unfold wrapped, failure_prefix, raw_parameters_name, hasattr;
    try congruence;
    match goal with
    | H1 : niwrap ?a ?b ?c = _, H2 : niwrap ?a ?b ?c = _ |- _ =>
        rewrite H1 in H2; inversion H2; subst
    end;
    repeat match goal with H : dict_get _ _ = _ |- _ => rewrite H end;
    reflexivity.
Qed.

(** *** The destination directory *)

(** C5, as the code has it.  After validation, BET and FAST create the fixed
    output directory and recon-all creates the subjects directory, and the
    collaborator, when it is reached, starts on a filesystem where that
    directory exists.  FLIRT and dwi2fod create nothing: the collaborator
    starts on the filesystem of the caller. *)
Theorem directory_ensured_before_call (c : ToolCall) (fs : FS) :
  inputs_exist fs c = true ->
  let tr := st_trace (snd (Server.run niwrap c (init fs))) in
  match created_dir c with
  | Some d =>
      mkdirs_of tr = [pathlib.str d]
      /\ forall callee kw seen,
           In (callee, kw, seen) (calls_of tr) -> fs_is_dir seen d = true
  | None =>
      mkdirs_of tr = []
      /\ forall callee kw seen,
           In (callee, kw, seen) (calls_of tr) -> seen = fs
  end.
Proof.
  intros Hin.
  destruct c as [i p f [[|]|]|i p t|i r0 o a|dw r0 o a|i s sd];
    unfold inputs_exist in Hin; simpl in Hin;
    rewrite ?andb_true_r in Hin; try apply andb_prop in Hin as [Hin Hin'];
    cbn [created_dir]; run_cases; try congruence;
    (split; [reflexivity|]); intros callee kw seen; simpl;
    try (intros []; fail);
    intros [[= <- <- <-]|[]]; eauto using fs_mkdir_is_dir.
Qed.

(** *** Paths predicted by recon-all *)

Lemma append_assoc (a b c : string) : (a +:+ b) +:+ c = a +:+ (b +:+ c).
Proof.
  induction a as [|x a IH]; [reflexivity | exact (f_equal (String x) IH)].
Qed.

Lemma join_parts_snoc2 (ps : list string) (a b : string) :
  ps <> [] ->
  pathlib.join_parts (ps ++ [a; b]) =
    pathlib.join_parts ps +:+ "/" +:+ a +:+ "/" +:+ b.
Proof.
  induction ps as [|x [|y ps'] IH]; intros Hne; [congruence|reflexivity|].
  change (pathlib.join_parts ((x :: y :: ps') ++ [a; b]))
    with (x +:+ "/" +:+ pathlib.join_parts ((y :: ps') ++ [a; b])).
  rewrite IH by discriminate.
  change (pathlib.join_parts (x :: y :: ps'))
    with (x +:+ "/" +:+ pathlib.join_parts (y :: ps')).
  now rewrite !append_assoc.
Qed.

Lemma str_nonempty (p : pathlib.PurePath) :
  pathlib.parts p <> [] ->
  pathlib.str p = pathlib.root p +:+ pathlib.join_parts (pathlib.parts p).
Proof.
  unfold pathlib.str. destruct (pathlib.root p), (pathlib.parts p);
    intros H; congruence || reflexivity.
Qed.

Lemma str_under2 (p : pathlib.PurePath) (a b : string) :
  pathlib.parts p <> [] ->
  pathlib.str (under p [a; b]) = pathlib.str p +:+ "/" +:+ a +:+ "/" +:+ b.
Proof.
  intros Hne. rewrite (str_nonempty p Hne), str_nonempty.
  - unfold under. simpl pathlib.root. simpl pathlib.parts.
    rewrite join_parts_snoc2 by assumption. now rewrite append_assoc.
  - unfold under. simpl pathlib.parts.
    destruct (pathlib.parts p); [congruence | discriminate].
Qed.

Lemma joinpath_under2 (p : pathlib.PurePath) (a b : string) :
  pathlib.starts_with_sep a = false ->
  pathlib.starts_with_sep b = false ->
  pathlib.parts (pathlib.Path a) = [a] ->
  pathlib.parts (pathlib.Path b) = [b] ->
  p // a // b = under p [a; b].
Proof.
  intros Ha Hb Pa Pb. unfold pathlib.joinpath, under.
  rewrite Ha, Hb, Pa, Pb. simpl. now rewrite <- app_assoc.
Qed.

(** C6.  The surface and volume paths of a successful recon-all response
    are the subject directory [Path(subjects_dir) / subject_id] extended by
    [surf/<name>] and [mri/<name>]: a function of the two arguments alone,
    whatever the collaborator returned and whatever it left on disk.  When
    the subject directory has a component, each path is its string followed
    by [/surf/<name>] or [/mri/<name>]. *)
Theorem recon_all_paths_follow_layout
    (fs : FS) (input_file subject_id : string) (subjects_dir : option string)
    (resp : dict) (st' : State) :
  Server.freesurfer_recon_all niwrap input_file subject_id subjects_dir
    (init fs) = (Return resp, st') ->
  let subject_dir :=
    pathlib.Path
      (default "/Users/hp/Desktop/neurodesk/data/freesurfer_subjects" subjects_dir)
    // subject_id in
  let at_ (l : list string) := VStr (pathlib.str (under subject_dir l)) in
  dict_get resp "surfaces" =
    Some (VDict [("left_pial", at_ ["surf"; "lh.pial"]);
                 ("right_pial", at_ ["surf"; "rh.pial"]);
                 ("left_white", at_ ["surf"; "lh.white"]);
                 ("right_white", at_ ["surf"; "rh.white"])])
  /\ dict_get resp "volumes" =
       Some (VDict [("brain", at_ ["mri"; "brain.mgz"]);
                    ("aseg", at_ ["mri"; "aseg.mgz"]);
                    ("aparc", at_ ["mri"; "aparc+aseg.mgz"])])
  /\ (pathlib.parts subject_dir <> [] ->
      forall sub name,
        pathlib.str (under subject_dir [sub; name]) =
          pathlib.str subject_dir +:+ "/" +:+ sub +:+ "/" +:+ name).
Proof.
  intros Hrun subject_dir at_. revert Hrun.
  run_cases; intros [= <- <-].
  subst at_ subject_dir.
  rewrite !joinpath_under2 by reflexivity.
  split; [reflexivity|]. split; [reflexivity|].
  intros Hne sub name. now apply str_under2.
Qed.

(** *** Registration *)

(** C7.  Whatever integer [dof] is, the registration tool goes on to the
    collaborator once both inputs exist, and the keyword mapping it passes
    holds that very [dof]. *)
Theorem flirt_forwards_dof
    (fs : FS) (input_file reference_file : string)
    (output_file : option string) (dof : Z) :
  path_exists fs input_file = true ->
  path_exists fs reference_file = true ->
  calls_of (st_trace (snd (Server.fsl_flirt_registration niwrap
                        input_file reference_file output_file (Some dof)
                        (init fs)))) =
    [("fsl.flirt",
      [("infile", VStr input_file);
       ("reference", VStr reference_file);
       ("outfile", VStr (default "registered.nii.gz" output_file));
       ("dof", VInt dof);
       ("cost", VStr "corratio")],
      fs)].
Proof.
  intros Hi Hr. run_cases; try congruence; reflexivity.
Qed.

(** C8.  A successful registration call that leaves [dof] out passes
    [dof = 12] and [cost = "corratio"] to the collaborator, and its metadata
    records [dof = 12] and, in [parameters], that same mapping. *)
Theorem flirt_default_dof
    (fs : FS) (input_file reference_file : string)
    (output_file : option string) (resp : dict) (st' : State) :
  path_exists fs input_file = true ->
  path_exists fs reference_file = true ->
  Server.fsl_flirt_registration niwrap input_file reference_file output_file
    None (init fs) = (Return resp, st') ->
  metadata resp "dof" = Some (VInt 12)
  /\ exists kw seen,
       calls_of (st_trace st') = [("fsl.flirt", kw, seen)]
       /\ dict_get kw "dof" = Some (VInt 12)
       /\ dict_get kw "cost" = Some (VStr "corratio")
       /\ metadata resp "parameters" = Some (VDict kw).
Proof.
  intros Hi Hr. run_cases; intros [= <- <-].
  split; [reflexivity|]. do 2 eexists. repeat split; reflexivity.
Qed.

End ServerProperties.

(** *** The prompt and the workspace resource *)

(** C9.  The guide is a total function: each of the three keys gives its own
    text, none of them empty, and every other string gives the fallback
    message that lists the three keys. *)
Theorem analysis_guide_total :
  Server.neuroimaging_analysis_guide "brain_extraction" = Server.brain_extraction_guide
  /\ Server.neuroimaging_analysis_guide "preprocessing" = Server.preprocessing_guide
  /\ Server.neuroimaging_analysis_guide "diffusion" = Server.diffusion_guide
  /\ Server.brain_extraction_guide <> ""
  /\ Server.preprocessing_guide <> ""
  /\ Server.diffusion_guide <> ""
  /\ forall analysis_type : string,
       analysis_type <> "brain_extraction" ->
       analysis_type <> "preprocessing" ->
       analysis_type <> "diffusion" ->
       Server.neuroimaging_analysis_guide analysis_type =
         "Unknown analysis type. Available types: brain_extraction, preprocessing, diffusion".
Proof.
  repeat (split; [first [reflexivity | discriminate]|]).
  intros s H1 H2 H3.
  apply not_eq_sym, String.eqb_neq in H1, H2, H3.
  cbv beta iota delta
    [Server.neuroimaging_analysis_guide Server.guides Server.guides_get].
  now rewrite H1, H2, H3.
Qed.

(** C10.  The workspace resource always returns a string and leaves the
    filesystem as it found it; when the workspace directory does not exist
    the string is [Workspace <session_id> not found]. *)
Theorem workspace_info_reads_only (session_id : string) (fs : FS) :
  (exists text,
      Server.get_workspace_info session_id (init fs) = (Return text, init fs))
  /\ (path_exists fs ("/tmp/neuroimaging_workspace/" +:+ session_id) = false ->
      Server.get_workspace_info session_id (init fs) =
        (Return ("Workspace " +:+ session_id +:+ " not found"), init fs)).
Proof.
  unfold Server.get_workspace_info, path_exists, glob_star. unfold_tools.
  destruct (fs_exists fs _) eqn:E; unfold_tools.
  - split; [eexists; reflexivity | discriminate].
  - split; [eexists; reflexivity | reflexivity].
Qed.

(** The fibre-orientation call on a missing DWI file. *)
Lemma missing_input_fails_first_witness :
  exists label p msg,
    In (label, p)
       (required_inputs (DWI2FOD "/data/missing.mif" "/data/response.txt" None None))
    /\ path_exists fs_demo p = false
    /\ Server.run niwrap_ok
         (DWI2FOD "/data/missing.mif" "/data/response.txt" None None)
         (init fs_demo) =
         (Raise (Exn FileNotFoundError (label +:+ " not found: " +:+ p) None),
          {| st_fs := fs_demo; st_trace := [EInfo msg] |}).
Proof.
  apply (missing_input_fails_first niwrap_ok
           (DWI2FOD "/data/missing.mif" "/data/response.txt" None None)
           fs_demo "DWI file" "/data/missing.mif").
  - simpl. auto.
  - vm_compute. reflexivity.
Defined.

Example dwi2fod_missing_dwi :
  Server.mrtrix_dwi2fod niwrap_ok "/data/missing.mif" "/data/response.txt"
    None None (init fs_demo) =
    (Raise (Exn FileNotFoundError "DWI file not found: /data/missing.mif" None),
     {| st_fs := fs_demo;
        st_trace := [EInfo [Lit "Starting FOD estimation with dwi2fod on ";
                            Hole (VStr "/data/missing.mif")]] |}).
Proof. vm_compute. reflexivity. Qed.

(** A successful recon-all call: its metadata has no [parameters] field,
    although a keyword mapping went to the collaborator. *)
Lemma recon_all_metadata_without_parameters :
  exists resp st' kw seen,
    Server.run niwrap_ok
      (RECON_ALL "/data/t1.nii.gz" "sub01" (Some "/data/subjects"))
      (init fs_demo) = (Return resp, st')
    /\ calls_of (st_trace st') = [("freesurfer.recon_all", kw, seen)]
    /\ metadata resp "parameters" = None
    /\ metadata resp "parameters" <> Some (VDict kw).
Proof.
  do 4 eexists. split; [vm_compute; reflexivity|].
  split; [vm_compute; reflexivity|].
  split; [reflexivity | discriminate].
Qed.

Lemma metadata_records_tool_and_call_witness :
  exists resp st',
    Server.run niwrap_ok (FLIRT "/data/t1.nii.gz" "/data/ref.nii.gz" None None)
      (init fs_demo) = (Return resp, st')
    /\ metadata resp "tool" = Some (VStr "FSL FLIRT")
    /\ exists callee kw seen,
         calls_of (st_trace st') = [(callee, kw, seen)]
         /\ metadata resp "parameters" = Some (VDict kw).
Proof.
  do 2 eexists. split; [vm_compute; reflexivity|].
  apply (metadata_records_tool_and_call niwrap_ok
           (FLIRT "/data/t1.nii.gz" "/data/ref.nii.gz" None None) fs_demo).
  vm_compute. reflexivity.
Defined.

(** Brain extraction on a missing input: the error that reaches the caller
    is the bare [FileNotFoundError], not a wrapper. *)
Lemma validation_error_is_not_wrapped :
  exists e st',
    Server.run niwrap_ok (BET "/data/missing.nii.gz" None None None)
      (init fs_demo) = (Raise e, st')
    /\ exc_cls e = FileNotFoundError
    /\ exc_context e = None
    /\ forall cause, e <> wrapped (BET "/data/missing.nii.gz" None None None) cause.
Proof.
  do 2 eexists. split; [vm_compute; reflexivity|].
  split; [reflexivity|]. split; [reflexivity|].
  intros cause. discriminate.
Qed.

(** Registration while the container runtime is down. *)
Lemma failures_inside_try_are_wrapped_witness :
  inputs_exist fs_demo (FLIRT "/data/t1.nii.gz" "/data/ref.nii.gz" None None) = true
  /\ exists st',
       Server.run niwrap_down (FLIRT "/data/t1.nii.gz" "/data/ref.nii.gz" None None)
         (init fs_demo) =
         (Raise (Exn RuntimeError
                   "FLIRT processing failed: docker: command not found"
                   (Some docker_down)), st').
Proof.
  split; [vm_compute; reflexivity|].
  destruct (Server.run niwrap_down
              (FLIRT "/data/t1.nii.gz" "/data/ref.nii.gz" None None)
              (init fs_demo)) as [r st'] eqn:E.
  exists st'. f_equal.
  refine (proj2 (failures_inside_try_are_wrapped niwrap_down
                   (FLIRT "/data/t1.nii.gz" "/data/ref.nii.gz" None None)
                   fs_demo _) r st' "fsl.flirt" _ fs_demo docker_down fs_demo
            E _ _ _).
  - vm_compute. reflexivity.
  - vm_compute in E. injection E as <- <-. left. reflexivity.
  - reflexivity.
  - reflexivity.
Defined.

(** Brain extraction on a medium that cannot be written, and recon-all in
    the same place: the first error is wrapped, the second is not. *)
Example mkdir_failure_bet_and_recon_all :
  fst (Server.run niwrap_ok (BET "/data/t1.nii.gz" None None None)
         (init fs_readonly)) =
    Raise (Exn RuntimeError
             "BET processing failed: [Errno 13] Permission denied: /Users/hp/Desktop/neurodesk/data/outputs"
             (Some (Exn PermissionError
                      "[Errno 13] Permission denied: /Users/hp/Desktop/neurodesk/data/outputs"
                      None)))
  /\ fst (Server.run niwrap_ok (RECON_ALL "/data/t1.nii.gz" "sub01" None)
            (init fs_readonly)) =
       Raise (Exn PermissionError
                "[Errno 13] Permission denied: /Users/hp/Desktop/neurodesk/data/freesurfer_subjects"
                None).
Proof. split; vm_compute; reflexivity. Qed.

(** The raw brain extraction with every collaborator in place. *)
Lemma raw_fsl_functions_never_return_witness :
  is_fsl (BET "/data/t1.nii.gz" None None None) = true
  /\ exists e st',
       Raw.run niwrap_ok (BET "/data/t1.nii.gz" None None None) (init fs_demo) =
         (Raise e, st')
       /\ forall callee kw seen o fs2,
            In (callee, kw, seen) (calls_of (st_trace st')) ->
            niwrap_ok callee kw seen = (inr o, fs2) ->
            e = wrapped (BET "/data/t1.nii.gz" None None None)
                  (if hasattr o "outfile" then
                     Exn NameError "name 'bet_params' is not defined" None
                   else
                     Exn AttributeError
                       ("'" +:+ obj_class o +:+ "' object has no attribute 'outfile'")
                       None).
Proof.
  split; [reflexivity|].
  apply (raw_fsl_functions_never_return niwrap_ok
           (BET "/data/t1.nii.gz" None None None) fs_demo).
  reflexivity.
Defined.

Example raw_bet_on_good_input :
  fst (Raw.fsl_bet_brain_extraction_raw niwrap_ok "/data/t1.nii.gz"
         None None None (init fs_demo)) =
    Raise (Exn RuntimeError
             "BET processing failed: name 'bet_params' is not defined"
             (Some (Exn NameError "name 'bet_params' is not defined" None))).
Proof. vm_compute. reflexivity. Qed.

(** Registration into a directory that is not there: the collaborator is
    invoked, nothing was created, and the directory is still missing. *)
Lemma flirt_creates_no_directory :
  inputs_exist fs_demo
    (FLIRT "/data/t1.nii.gz" "/data/ref.nii.gz"
       (Some "/data/out/registered.nii.gz") None) = true
  /\ mkdirs_of
       (st_trace (snd (Server.run niwrap_ok
                         (FLIRT "/data/t1.nii.gz" "/data/ref.nii.gz"
                            (Some "/data/out/registered.nii.gz") None)
                         (init fs_demo)))) = []
  /\ (exists kw,
        calls_of
          (st_trace (snd (Server.run niwrap_ok
                            (FLIRT "/data/t1.nii.gz" "/data/ref.nii.gz"
                               (Some "/data/out/registered.nii.gz") None)
                            (init fs_demo)))) = [("fsl.flirt", kw, fs_demo)]
        /\ dict_get kw "outfile" = Some (VStr "/data/out/registered.nii.gz"))
  /\ path_exists fs_demo "/data/out" = false.
Proof.
  split; [vm_compute; reflexivity|].
  split; [vm_compute; reflexivity|].
  split; [|vm_compute; reflexivity].
  eexists. split; [vm_compute; reflexivity | reflexivity].
Qed.

Lemma directory_ensured_before_call_witness :
  inputs_exist fs_demo (BET "/data/t1.nii.gz" None None None) = true
  /\ mkdirs_of
       (st_trace (snd (Server.run niwrap_ok (BET "/data/t1.nii.gz" None None None)
                         (init fs_demo)))) =
       ["/Users/hp/Desktop/neurodesk/data/outputs"]
  /\ forall callee kw seen,
       In (callee, kw, seen)
          (calls_of
             (st_trace (snd (Server.run niwrap_ok
                               (BET "/data/t1.nii.gz" None None None)
                               (init fs_demo))))) ->
       fs_is_dir seen (pathlib.Path "/Users/hp/Desktop/neurodesk/data/outputs") = true.
Proof.
  split; [vm_compute; reflexivity|].
  apply (directory_ensured_before_call niwrap_ok
           (BET "/data/t1.nii.gz" None None None) fs_demo).
  vm_compute. reflexivity.
Defined.

(** recon-all with a collaborator that returns a bare object and writes
    nothing: the response lists the paths, none of which exists. *)
Lemma recon_all_paths_follow_layout_witness :
  exists resp st',
    Server.freesurfer_recon_all niwrap_bare "/data/t1.nii.gz" "sub01"
      (Some "/data/subjects") (init fs_demo) = (Return resp, st')
    /\ dict_get resp "surfaces" =
         Some (VDict [("left_pial", VStr "/data/subjects/sub01/surf/lh.pial");
                      ("right_pial", VStr "/data/subjects/sub01/surf/rh.pial");
                      ("left_white", VStr "/data/subjects/sub01/surf/lh.white");
                      ("right_white", VStr "/data/subjects/sub01/surf/rh.white")])
    /\ dict_get resp "volumes" =
         Some (VDict [("brain", VStr "/data/subjects/sub01/mri/brain.mgz");
                      ("aseg", VStr "/data/subjects/sub01/mri/aseg.mgz");
                      ("aparc", VStr "/data/subjects/sub01/mri/aparc+aseg.mgz")])
    /\ path_exists (st_fs st') "/data/subjects/sub01/surf/lh.pial" = false
    /\ path_exists (st_fs st') "/data/subjects/sub01/mri/brain.mgz" = false.
Proof.
  do 2 eexists. split; [vm_compute; reflexivity|].
  pose proof (recon_all_paths_follow_layout niwrap_bare fs_demo
                "/data/t1.nii.gz" "sub01" (Some "/data/subjects") _ _
                ltac:(vm_compute; reflexivity)) as (Hs & Hv & _).
  split; [exact Hs|]. split; [exact Hv|].
  split; vm_compute; reflexivity.
Defined.

Example recon_all_relative_and_absolute :
  pathlib.str (pathlib.Path "subjects/" // "sub01" // "surf" // "lh.pial")
    = "subjects/sub01/surf/lh.pial"
  /\ pathlib.str (pathlib.Path "/data/subjects" // "/elsewhere" // "mri" // "aseg.mgz")
       = "/elsewhere/mri/aseg.mgz".
Proof. split; reflexivity. Qed.

(** Five degrees of freedom, which FLIRT does not know. *)
Lemma flirt_forwards_dof_witness :
  path_exists fs_demo "/data/t1.nii.gz" = true
  /\ path_exists fs_demo "/data/ref.nii.gz" = true
  /\ calls_of (st_trace (snd (Server.fsl_flirt_registration niwrap_ok
                            "/data/t1.nii.gz" "/data/ref.nii.gz" None (Some 5)
                            (init fs_demo)))) =
       [("fsl.flirt",
         [("infile", VStr "/data/t1.nii.gz");
          ("reference", VStr "/data/ref.nii.gz");
          ("outfile", VStr "registered.nii.gz");
          ("dof", VInt 5);
          ("cost", VStr "corratio")],
         fs_demo)].
Proof.
  split; [vm_compute; reflexivity|]. split; [vm_compute; reflexivity|].
  apply (flirt_forwards_dof niwrap_ok fs_demo
           "/data/t1.nii.gz" "/data/ref.nii.gz" None 5);
    vm_compute; reflexivity.
Defined.

Lemma flirt_default_dof_witness :
  exists resp st',
    path_exists fs_demo "/data/t1.nii.gz" = true
    /\ path_exists fs_demo "/data/ref.nii.gz" = true
    /\ Server.fsl_flirt_registration niwrap_ok "/data/t1.nii.gz" "/data/ref.nii.gz"
         None None (init fs_demo) = (Return resp, st')
    /\ metadata resp "dof" = Some (VInt 12)
    /\ exists kw seen,
         calls_of (st_trace st') = [("fsl.flirt", kw, seen)]
         /\ dict_get kw "dof" = Some (VInt 12)
         /\ dict_get kw "cost" = Some (VStr "corratio")
         /\ metadata resp "parameters" = Some (VDict kw).
Proof.
  do 2 eexists.
  split; [vm_compute; reflexivity|]. split; [vm_compute; reflexivity|].
  split; [vm_compute; reflexivity|].
  apply (flirt_default_dof niwrap_ok fs_demo
           "/data/t1.nii.gz" "/data/ref.nii.gz" None);
    vm_compute; reflexivity.
Defined.

Lemma analysis_guide_total_witness :
  "tractography" <> "brain_extraction"
  /\ "tractography" <> "preprocessing"
  /\ "tractography" <> "diffusion"
  /\ Server.neuroimaging_analysis_guide "tractography" =
       "Unknown analysis type. Available types: brain_extraction, preprocessing, diffusion".
Proof.
  split; [discriminate|]. split; [discriminate|]. split; [discriminate|].
  apply (proj2 (proj2 (proj2 (proj2 (proj2 (proj2 analysis_guide_total))))));
    discriminate.
Defined.

Lemma workspace_info_reads_only_witness :
  path_exists fs_demo ("/tmp/neuroimaging_workspace/" +:+ "s2") = false
  /\ Server.get_workspace_info "s2" (init fs_demo) =
       (Return "Workspace s2 not found", init fs_demo).
Proof.
  split; [vm_compute; reflexivity|].
  apply (proj2 (workspace_info_reads_only "s2" fs_demo)).
  vm_compute. reflexivity.
Defined.

Example workspace_info_lists_files :
  Server.get_workspace_info "s1" (init fs_demo) =
    (Return ("Workspace s1:" +:+ nl +:+ "Files:" +:+ nl +:+ "- brain.nii.gz"),
     init fs_demo).
Proof. vm_compute. reflexivity. Qed.

(** * Further properties of the tools *)

Section ToolProperties.

Variable niwrap : Niwrap.

Ltac split_step :=
  match goal with
  | |- context [fs_exists ?fs ?p] => destruct (fs_exists fs p) eqn:?
  | |- context [fs_mkdir ?fs ?p] => destruct (fs_mkdir fs p) as [?e|?fs'] eqn:?
  | |- context [niwrap ?c ?k ?f] =>
      destruct (niwrap c k f) as [[?e|?o] ?fs''] eqn:?
  | |- context [is_Exception ?e] => destruct (is_Exception e) eqn:?
  | |- context [dict_get (obj_attrs ?o) ?a] =>
      destruct (dict_get (obj_attrs o) a) eqn:?
  end.

Ltac split_run :=
  unfold_tools; unfold getattr, hasattr, path_exists in *;
  cbn [default from_option id dict_set String.eqb Ascii.eqb Bool.eqb];
  repeat (cbn [is_Exception exc_cls]; split_step; unfold_tools).

(** X1.  A server tool raises nothing else than: [FileNotFoundError] without
    context when a required input is missing; its own [RuntimeError] wrapper
    around an [Exception]; for recon-all, the error of its directory
    creation; or what the collaborator raised outside of [Exception]. *)
Theorem server_errors_classified (c : ToolCall) (fs : FS) (e : exn) (st' : State) :
  Server.run niwrap c (init fs) = (Raise e, st') ->
  (inputs_exist fs c = false
   /\ exc_cls e = FileNotFoundError /\ exc_context e = None)
  \/ (inputs_exist fs c = true
      /\ exists cause, is_Exception cause = true /\ e = wrapped c cause)
  \/ (inputs_exist fs c = true
      /\ exists i s d dir,
          c = RECON_ALL i s d /\ created_dir c = Some dir
          /\ fs_mkdir fs dir = inl e)
  \/ (inputs_exist fs c = true
      /\ is_Exception e = false
      /\ exists kw seen fs2,
          calls_of (st_trace st') = [(server_callee c, kw, seen)]
          /\ niwrap (server_callee c) kw seen = (inl e, fs2)).
Proof.
  destruct c as [i p f [[|]|]|i p t|i r0 o a|dw r0 o a|i s sd];
    unfold inputs_exist; cbn [required_inputs forallb snd];
    split_run; intros [= <- <-];
    repeat match goal with H : fs_exists _ _ = _ |- _ => rewrite H end;
    cbn [andb].
  all: try congruence.
  all: try match goal with
           | H : fs_mkdir _ _ = inl ?e, H' : is_Exception ?e = false |- _ =>
               rewrite (fs_mkdir_raises_Exception _ _ _ H) in H'; discriminate
           end.
  all: try (left; repeat split; reflexivity).
  all: try (right; left; split; [reflexivity|];
            match goal with
            | |- exists cause, _ /\ Exn _ _ (Some ?x) = _ =>
                exists x; split;
                [first [assumption | reflexivity
                       | eauto using fs_mkdir_raises_Exception]
                | reflexivity]
            end).
  all: try (right; right; left; split; [reflexivity|]; do 4 eexists;
            split; [reflexivity|]; split; [reflexivity|]; assumption).
  all: try (right; right; right; split; [reflexivity|];
            split; [first [assumption | reflexivity]|];
            do 3 eexists; split; [reflexivity|]; eassumption).
Qed.

(** X2.  A server tool returns a response exactly when it reached the
    collaborator once, the collaborator returned an object, and that object
    has the attribute the tool reads ([outfile], [fod]; none for recon-all). *)
Theorem server_returns_iff (c : ToolCall) (fs : FS) (r : result dict) (st' : State) :
  Server.run niwrap c (init fs) = (r, st') ->
  (exists resp, r = Return resp) <->
  (exists kw seen o fs2,
      calls_of (st_trace st') = [(server_callee c, kw, seen)]
      /\ niwrap (server_callee c) kw seen = (inr o, fs2)
      /\ forall a, required_attr c = Some a -> hasattr o a = true).
Proof.
  destruct c as [i p f [[|]|]|i p t|i r0 o a|dw r0 o a|i s sd];
    split_run; intros [= <- <-]; cbn [calls_of server_callee required_attr].
  all: split;
    [ intros [resp Hr];
      first
        [ discriminate
        | do 4 eexists; split; [reflexivity|]; split; [eassumption|];
          intros a0 Ha0; try discriminate; injection Ha0 as <-;
          repeat match goal with H : dict_get _ _ = _ |- _ => rewrite H end;
          reflexivity ]
    | intros (kw & seen & ob & fs2 & Hc & Hn & Ha);
      first
        [ discriminate
        | eexists; reflexivity
        | inversion Hc; subst; clear Hc;
          match goal with
          | H1 : niwrap ?a ?b ?c = _, H2 : niwrap ?a ?b ?c = _ |- _ =>
              rewrite H1 in H2; inversion H2; subst
          end;
          specialize (Ha _ eq_refl);
          repeat match goal with
                 | H : dict_get _ _ = _ |- _ => rewrite H in Ha
                 end; discriminate ] ].
Qed.

(** X3.  A tool call invokes the collaborator at most once, with the tool's
    own callable.  Without an invocation the filesystem is the caller's; with
    one, the final filesystem is the one the collaborator left: the tool
    neither retries nor cleans up, also when it fails afterwards. *)
Theorem one_call_and_no_cleanup (c : ToolCall) (fs : FS) :
  let st' := snd (Server.run niwrap c (init fs)) in
  (calls_of (st_trace st') = [] /\ st_fs st' = fs)
  \/ (exists kw seen,
         calls_of (st_trace st') = [(server_callee c, kw, seen)]
         /\ st_fs st' = snd (niwrap (server_callee c) kw seen)).
Proof.
  destruct c as [i p f [[|]|]|i p t|i r0 o a|dw r0 o a|i s sd];
    split_run; cbn [snd st_fs st_trace calls_of app server_callee];
    first [ left; split; reflexivity
          | right; do 2 eexists; split; [reflexivity|];
            match goal with H : niwrap _ _ _ = _ |- _ => rewrite H end;
            reflexivity ].
Qed.

(** X4.  BET passes [binary_mask=True] when the mask is wanted and leaves the
    key out otherwise; the response has [brain_mask] exactly when the mask is
    wanted and the result has a [binary_mask] attribute, and then it is that
    attribute. *)
Theorem bet_binary_mask_flag
    (fs : FS) (input_file : string) (output_prefix : option string)
    (fractional_intensity : option float) (generate_binary_mask : option bool)
    (r : result dict) (st' : State) :
  Server.fsl_bet_brain_extraction niwrap input_file output_prefix
    fractional_intensity generate_binary_mask (init fs) = (r, st') ->
  (forall callee kw seen,
      In (callee, kw, seen) (calls_of (st_trace st')) ->
      dict_get kw "binary_mask" =
        if default true generate_binary_mask then Some (VBool true) else None)
  /\ (forall resp,
        r = Return resp ->
        exists kw seen o fs2,
          calls_of (st_trace st') = [("fsl.bet", kw, seen)]
          /\ niwrap "fsl.bet" kw seen = (inr o, fs2)
          /\ dict_get resp "brain_mask" =
               if default true generate_binary_mask
               then dict_get (obj_attrs o) "binary_mask" else None).
Proof.
  destruct generate_binary_mask as [[|]|];
    split_run; intros [= <- <-]; cbn [calls_of]; split;
    try (intros callee kw seen []; fail);
    try (intros callee kw seen [[= <- <- <-]|[]]; reflexivity);
    intros resp Hr; try discriminate; injection Hr as <-;
    do 4 eexists; (split; [reflexivity|]); (split; [eassumption|]);
    cbn [dict_get dict_set String.eqb Ascii.eqb Bool.eqb];
    repeat match goal with H : dict_get _ _ = _ |- _ => rewrite H end;
    reflexivity.
Qed.

(** X5.  FLIRT and dwi2fod check their first path first: when it is missing
    the error names it, whatever the second path is; the second path is named
    only when the first exists. *)
Theorem inputs_checked_in_order
    (fs : FS) (first second : string) (out : option string) :
  (path_exists fs first = false ->
   (forall dof,
       fst (Server.fsl_flirt_registration niwrap first second out dof (init fs)) =
         Raise (Exn FileNotFoundError ("Input file not found: " +:+ first) None))
   /\ (forall algorithm,
         fst (Server.mrtrix_dwi2fod niwrap first second out algorithm (init fs)) =
           Raise (Exn FileNotFoundError ("DWI file not found: " +:+ first) None)))
  /\ (path_exists fs first = true -> path_exists fs second = false ->
      (forall dof,
          fst (Server.fsl_flirt_registration niwrap first second out dof (init fs)) =
            Raise (Exn FileNotFoundError
                     ("Reference file not found: " +:+ second) None))
      /\ (forall algorithm,
            fst (Server.mrtrix_dwi2fod niwrap first second out algorithm (init fs)) =
              Raise (Exn FileNotFoundError
                       ("Response file not found: " +:+ second) None))).
Proof.
  unfold path_exists. split.
  - intros H1. split; intros x; unfold_tools; rewrite H1; reflexivity.
  - intros H1 H2. split; intros x; unfold_tools; rewrite H1; unfold_tools;
      rewrite H2; reflexivity.
Qed.

(** X6.  A successful response has the keys of its tool, in order, ending
    with a [metadata] mapping; only BET with the mask wanted may add
    [brain_mask] after them. *)
Theorem response_shape (c : ToolCall) (fs : FS) (resp : dict) (st' : State) :
  Server.run niwrap c (init fs) = (Return resp, st') ->
  (dict_keys resp = response_keys c
   \/ (exists i p f m, c = BET i p f m /\ default true m = true
                       /\ dict_keys resp = response_keys c ++ ["brain_mask"]))
  /\ exists m, dict_get resp "metadata" = Some (VDict m).
Proof.
  destruct c as [i p f [[|]|]|i p t|i r0 o a|dw r0 o a|i s sd];
    split_run; intros [= <- <-]; (split; [|eexists; reflexivity]);
    first [ left; reflexivity
          | right; do 4 eexists; split; [reflexivity|]; split; reflexivity ].
Qed.

(** X7.  The main output of BET, FAST, FLIRT and dwi2fod is the attribute the
    collaborator's result carries, unchanged; FAST falls back to an empty list
    and [None] for [tissue_maps] and [bias_field], FLIRT to [None] for the
    matrix. *)
Theorem primary_output_passes_through
    (c : ToolCall) (fs : FS) (resp : dict) (st' : State) (a : string) :
  Server.run niwrap c (init fs) = (Return resp, st') ->
  required_attr c = Some a ->
  exists kw seen o fs2,
    calls_of (st_trace st') = [(server_callee c, kw, seen)]
    /\ niwrap (server_callee c) kw seen = (inr o, fs2)
    /\ dict_get resp (primary_key c) = dict_get (obj_attrs o) a
    /\ match c with
       | FAST _ _ _ =>
           dict_get resp "tissue_maps" =
             Some (getattr_default o "tissue_maps" (VList []))
           /\ dict_get resp "bias_field" =
                Some (getattr_default o "bias_field" VNone)
       | FLIRT _ _ _ _ =>
           dict_get resp "transformation_matrix" =
             Some (getattr_default o "omat" VNone)
       | _ => True
       end.
Proof.
  destruct c as [i p f [[|]|]|i p t|i r0 o a0|dw r0 o a0|i s sd];
    split_run; intros [= <- <-]; intros [= <-];
    do 4 eexists; (split; [reflexivity|]); (split; [eassumption|]);
    cbn [dict_get dict_set String.eqb Ascii.eqb Bool.eqb primary_key];
    repeat match goal with H : dict_get _ _ = _ |- _ => rewrite H end;
    repeat split; reflexivity.
Qed.

(** ** The raw functions against the server's *)

(** X8.  The raw recon-all does what the server's does: the same result, the
    same filesystem, and the same trace with every context message printed
    instead. *)
Theorem raw_recon_all_matches_server
    (fs : FS) (input_file subject_id : string) (subjects_dir : option string) :
  let server :=
    Server.freesurfer_recon_all niwrap input_file subject_id subjects_dir (init fs) in
  let raw :=
    Raw.freesurfer_recon_all_raw niwrap input_file subject_id subjects_dir (init fs) in
  fst raw = fst server
  /\ st_fs (snd raw) = st_fs (snd server)
  /\ st_trace (snd raw) = map as_print (st_trace (snd server)).
Proof.
  split_run; repeat split; reflexivity.
Qed.

(** X9.  The raw dwi2fod calls [niwrap.mrtrix.dwi2fod] where the server calls
    [niwrap.mrtrix3.dwi2fod]; when the two behave alike, the raw function gives
    the server's result and filesystem. *)
Theorem raw_dwi2fod_matches_server
    (fs : FS) (dwi_file response_file : string)
    (output_fod algorithm : option string) :
  (forall kw fs0, niwrap "mrtrix.dwi2fod" kw fs0 = niwrap "mrtrix3.dwi2fod" kw fs0) ->
  let server :=
    Server.mrtrix_dwi2fod niwrap dwi_file response_file output_fod algorithm
      (init fs) in
  let raw :=
    Raw.mrtrix_dwi2fod_raw niwrap dwi_file response_file output_fod algorithm
      (init fs) in
  fst raw = fst server /\ st_fs (snd raw) = st_fs (snd server).
Proof.
  intros Hsame. split_run;
    repeat match goal with
           | H : niwrap "mrtrix.dwi2fod" _ _ = _ |- _ => rewrite Hsame in H
           end;
    try match goal with
        | H1 : niwrap ?a ?b ?c = _, H2 : niwrap ?a ?b ?c = _ |- _ =>
            rewrite H1 in H2; inversion H2; subst
        end;
    try congruence;
    repeat match goal with
           | H : dict_get ?d ?k = _, H' : dict_get ?d ?k = _ |- _ =>
               rewrite H in H'; inversion H'; subst
           end;
    try congruence; repeat split; reflexivity.
Qed.

Lemma str_replace_absent (old new s : string) :
  occurs_in old s = false -> str_replace s old new = s.
Proof.
  unfold str_replace. induction s as [|c s IH]; [reflexivity|].
  cbn [occurs_in]. intros H. apply orb_false_elim in H as [Hp Ho].
  cbn [str_replace_from]. rewrite Hp. f_equal. apply IH, Ho.
Qed.

Lemma str_replace_dotless_base (base : string) :
  no_dot base = true ->
  str_replace (base +:+ ".nii.gz") ".nii.gz" ".mat" = base +:+ ".mat".
Proof.
  unfold str_replace. induction base as [|c b IH]; [reflexivity|].
  cbn [no_dot]. intros H. apply andb_prop in H as [Hc Hb].
  change (String c b +:+ ".nii.gz") with (String c (b +:+ ".nii.gz")).
  change (String c b +:+ ".mat") with (String c (b +:+ ".mat")).
  cbn [str_replace_from].
  assert (Hp : String.prefix ".nii.gz" (String c (b +:+ ".nii.gz")) = false).
  { cbn [String.prefix]. destruct (ascii_dec "." c) as [<-|]; [discriminate|reflexivity]. }
  rewrite Hp. f_equal. apply IH, Hb.
Qed.

(** X10.  The raw FLIRT derives the matrix path from the output path by
    replacing [.nii.gz] with [.mat].  An output path without [.nii.gz] gives
    a matrix path equal to the image path; [base.nii.gz] with a base free of
    dots gives [base.mat]. *)
Theorem raw_flirt_matrix_path
    (fs : FS) (input_file reference_file output_file : string) (dof : option Z) :
  path_exists fs input_file = true ->
  path_exists fs reference_file = true ->
  exists kw,
    calls_of (st_trace (snd (Raw.fsl_flirt_registration_raw niwrap
                               input_file reference_file (Some output_file) dof
                               (init fs)))) = [("fsl.flirt", kw, fs)]
    /\ dict_get kw "out_file" = Some (VStr output_file)
    /\ (occurs_in ".nii.gz" output_file = false ->
        dict_get kw "out_matrix_file" = Some (VStr output_file))
    /\ (forall base,
          output_file = base +:+ ".nii.gz" -> no_dot base = true ->
          dict_get kw "out_matrix_file" = Some (VStr (base +:+ ".mat"))).
Proof.
  intros Hi Hr. split_run; try congruence.
  all: eexists; (split; [reflexivity|]); (split; [reflexivity|]);
    cbn [dict_get String.eqb Ascii.eqb Bool.eqb]; split;
    [ intros Hno; now rewrite str_replace_absent
    | intros base -> Hb; now rewrite str_replace_dotless_base ].
Qed.

(** X11.  On a missing input the raw functions fail as the server tools do:
    the same [FileNotFoundError], the filesystem untouched, and one printed
    line where the server sent one message. *)
Theorem raw_validation_matches_server (c : ToolCall) (fs : FS) :
  inputs_exist fs c = false ->
  (exists e, fst (Server.run niwrap c (init fs)) = Raise e
             /\ exc_cls e = FileNotFoundError)
  /\ fst (Raw.run niwrap c (init fs)) = fst (Server.run niwrap c (init fs))
  /\ snd (Raw.run niwrap c (init fs)) =
       {| st_fs := fs;
          st_trace := map as_print (st_trace (snd (Server.run niwrap c (init fs)))) |}
  /\ length (st_trace (snd (Raw.run niwrap c (init fs)))) = 1%nat.
Proof.
  unfold inputs_exist.
  destruct c as [i p f m|i p t|i r0 o a|dw r0 o a|i s sd];
    cbn [required_inputs forallb snd]; unfold path_exists; unfold_tools;
    repeat (match goal with
            | |- context [fs_exists ?f0 ?q] => destruct (fs_exists f0 q) eqn:?
            end; unfold_tools);
    cbn [andb]; intros Hf; try discriminate;
    (split; [eexists; split; reflexivity|]); repeat split; reflexivity.
Qed.

End ToolProperties.

(** X12.  The guide answers with the fallback message exactly for the strings
    that are none of the three keys, and its answer is never empty. *)
Theorem analysis_guide_fallback_iff (analysis_type : string) :
  (Server.neuroimaging_analysis_guide analysis_type = Server.unknown_analysis_type
   <-> (analysis_type <> "brain_extraction"
        /\ analysis_type <> "preprocessing"
        /\ analysis_type <> "diffusion"))
  /\ Server.neuroimaging_analysis_guide analysis_type <> "".
Proof.
  cbv beta iota delta
    [Server.neuroimaging_analysis_guide Server.guides Server.guides_get].
  destruct (String.eqb_spec "brain_extraction" analysis_type) as [<-|H1];
    [split; [split; [discriminate | intros (H & _); congruence] | discriminate]|].
  destruct (String.eqb_spec "preprocessing" analysis_type) as [<-|H2];
    [split; [split; [discriminate | intros (_ & H & _); congruence] | discriminate]|].
  destruct (String.eqb_spec "diffusion" analysis_type) as [<-|H3];
    [split; [split; [discriminate | intros (_ & _ & H); congruence] | discriminate]|].
  split; [|discriminate].
  split; [intros _; repeat split; congruence | reflexivity].
Qed.

(** * The directory layout and the tool tests *)

Lemma add_dir_keeps (m : gmap string node) (p : pathlib.PurePath) (k : string) (v : node) :
  m !! pathlib.str p <> Some File ->
  m !! k = Some v -> add_dir m p !! k = Some v.
Proof.
  intros Hnf Hk. unfold add_dir.
  destruct (decide (pathlib.str p = k)) as [Heq|Hne].
  - subst k. rewrite lookup_insert_eq. rewrite Hk in Hnf. destruct v; congruence.
  - now rewrite lookup_insert_ne.
Qed.

Lemma add_dir_no_file (m : gmap string node) (p : pathlib.PurePath) (k : string) :
  m !! k <> Some File -> add_dir m p !! k <> Some File.
Proof.
  intros Hk. unfold add_dir.
  destruct (decide (pathlib.str p = k)) as [Heq|Hne].
  - subst k. rewrite lookup_insert_eq. discriminate.
  - now rewrite lookup_insert_ne.
Qed.

Lemma foldl_add_dir_keeps (l : list pathlib.PurePath) (m : gmap string node) :
  (forall a, In a l -> m !! pathlib.str a <> Some File) ->
  (forall k v, m !! k = Some v -> foldl add_dir m l !! k = Some v)
  /\ (forall k, m !! k <> Some File -> foldl add_dir m l !! k <> Some File).
Proof.
  revert m. induction l as [|a l IH]; intros m Hl; [split; auto|].
  cbn [foldl].
  destruct (IH (add_dir m a)) as [IH1 IH2].
  - intros b Hb. apply add_dir_no_file, Hl. now right.
  - split.
    + intros k v Hk. apply IH1, add_dir_keeps; [apply Hl; now left | exact Hk].
    + intros k Hk. apply IH2, add_dir_no_file, Hk.
Qed.

Lemma existsb_is_file_false (fs : FS) (l : list pathlib.PurePath) :
  existsb (fs_is_file fs) l = false ->
  forall a, In a l -> entries fs !! pathlib.str a <> Some File.
Proof.
  intros H a Ha Hf.
  assert (existsb (fs_is_file fs) l = true) as Ht; [|congruence].
  apply existsb_exists. exists a. split; [exact Ha|].
  unfold fs_is_file. now rewrite Hf.
Qed.

(** [mkdir] adds; it never removes or changes an entry. *)
Lemma fs_mkdir_keeps (fs fs' : FS) (p : pathlib.PurePath) (k : string) (v : node) :
  fs_mkdir fs p = inr fs' ->
  entries fs !! k = Some v -> entries fs' !! k = Some v.
Proof.
  unfold fs_mkdir.
  destruct (entries fs !! pathlib.str p) as [[|]|] eqn:E; try discriminate.
  - now intros [= <-].
  - destruct (existsb _ _) eqn:Ex; try discriminate.
    destruct (writable fs); try discriminate.
    intros [= <-] Hk. cbn [entries].
    destruct (foldl_add_dir_keeps (pathlib.ancestors p) (entries fs)
                (existsb_is_file_false fs _ Ex)) as [K1 K2].
    apply add_dir_keeps; [|now apply K1].
    apply K2. rewrite E. discriminate.
Qed.

Lemma fs_mkdir_on_dir (fs : FS) (p : pathlib.PurePath) :
  fs_is_dir fs p = true -> fs_mkdir fs p = inr fs.
Proof.
  unfold fs_is_dir, fs_mkdir.
  destruct (entries fs !! pathlib.str p) as [[|]|]; congruence.
Qed.

Lemma fs_is_dir_keeps (fs fs' : FS) (p q : pathlib.PurePath) :
  fs_mkdir fs p = inr fs' -> fs_is_dir fs q = true -> fs_is_dir fs' q = true.
Proof.
  intros Hm. unfold fs_is_dir.
  destruct (entries fs !! pathlib.str q) as [[|]|] eqn:E; try discriminate.
  intros _. now rewrite (fs_mkdir_keeps _ _ _ _ _ Hm E).
Qed.

Section Layout.

Variable note : string -> list piece.

Let body (d : string) : M unit := mkdir (pathlib.Path d);;; print (note d).

Lemma for_each_mkdir_creates (l : list string) (st st' : State) :
  for_each l body st = (Return tt, st') ->
  (forall d, In d l -> fs_is_dir (st_fs st') (pathlib.Path d) = true)
  /\ (forall k v, entries (st_fs st) !! k = Some v ->
                  entries (st_fs st') !! k = Some v)
  /\ (forall q, fs_is_dir (st_fs st) q = true -> fs_is_dir (st_fs st') q = true).
Proof.
  revert st. induction l as [|d l IH]; intros [fs0 tr0].
  - cbn [for_each]. unfold ret. intros [= <-]. repeat split; auto.
  - cbn [for_each]. subst body. unfold_tools.
    destruct (fs_mkdir fs0 (pathlib.Path d)) as [e|fs1] eqn:Hm;
      unfold_tools; [discriminate|].
    intros Hrest. apply IH in Hrest as (I1 & I2 & I3). cbn [st_fs] in *.
    repeat split.
    + intros d' [<-|Hd']; [|now apply I1].
      apply I3. now apply fs_mkdir_is_dir with (fs := fs0).
    + intros k v Hk. apply I2. eapply fs_mkdir_keeps; eauto.
    + intros q Hq. apply I3. eapply fs_is_dir_keeps; eauto.
Qed.

Lemma for_each_mkdir_noop (l : list string) (st : State) :
  (forall d, In d l -> fs_is_dir (st_fs st) (pathlib.Path d) = true) ->
  fst (for_each l body st) = Return tt
  /\ st_fs (snd (for_each l body st)) = st_fs st.
Proof.
  revert st. induction l as [|d l IH]; intros [fs0 tr0] Hl; [split; reflexivity|].
  cbn [for_each]. subst body. unfold_tools. cbn [st_fs] in Hl.
  rewrite (fs_mkdir_on_dir _ _ (Hl d (or_introl eq_refl))). unfold_tools.
  match goal with
  | |- context [for_each l ?b ?s] =>
      destruct (IH s) as [I1 I2]; [intros d' Hd'; apply Hl; now right|]
  end.
  cbn [st_fs] in I2. split; assumption.
Qed.

End Layout.

(** X13.  When [create_directory_structure] completes, its five directories
    exist and every entry that was there before is still there, unchanged. *)
Theorem create_directory_structure_creates_all (fs : FS) (st' : State) :
  CreateTestData.create_directory_structure (init fs) = (Return tt, st') ->
  (forall d, In d CreateTestData.directories ->
             fs_is_dir (st_fs st') (pathlib.Path d) = true)
  /\ (forall k v, entries fs !! k = Some v -> entries (st_fs st') !! k = Some v).
Proof.
  intros H. unfold CreateTestData.create_directory_structure in H.
  apply for_each_mkdir_creates in H as (H1 & H2 & _). split; assumption.
Qed.

(** X14.  Running [create_directory_structure] again on what it produced
    completes and changes nothing. *)
Theorem create_directory_structure_idempotent (fs : FS) (st' : State) :
  CreateTestData.create_directory_structure (init fs) = (Return tt, st') ->
  fst (CreateTestData.create_directory_structure (init (st_fs st'))) = Return tt
  /\ st_fs (snd (CreateTestData.create_directory_structure (init (st_fs st'))))
     = st_fs st'.
Proof.
  intros H. unfold CreateTestData.create_directory_structure in *.
  apply for_each_mkdir_creates in H as (H1 & _ & _).
  apply (for_each_mkdir_noop _ CreateTestData.directories (init (st_fs st'))).
  exact H1.
Qed.

Section TestProperties.

Variable niwrap : Niwrap.
Variable format_exc : exn -> string.

Ltac test_step :=
  match goal with
  | |- context [fs_exists ?fs ?p] => destruct (fs_exists fs p) eqn:?
  | |- context [fs_mkdir ?fs ?p] => destruct (fs_mkdir fs p) as [?e|?fs'] eqn:?
  | |- context [niwrap ?c ?k ?f] =>
      destruct (niwrap c k f) as [[?e|?o] ?fs''] eqn:?
  | |- context [is_Exception ?e] => destruct (is_Exception e) eqn:?
  | |- context [dict_get (obj_attrs ?o) ?a] =>
      destruct (dict_get (obj_attrs o) a) eqn:?
  end.

Ltac test_run :=
  unfold TestTools.test_fsl_bet, TestTools.test_fsl_fast,
    TestTools.test_fsl_flirt, TestTools.test_mrtrix_dwi2fod,
    TestTools.test_freesurfer_recon_all;
  unfold_tools; unfold getattr, hasattr, path_exists in *;
  cbn [default from_option id dict_set String.eqb Ascii.eqb Bool.eqb];
  repeat (cbn [is_Exception exc_cls]; test_step; unfold_tools).

(** X15.  On a filesystem prepared by [create_directory_structure], BET, FAST
    and recon-all with the default subjects directory create nothing: the
    collaborator starts on the prepared filesystem itself. *)
Theorem prepared_layout_needs_no_mkdir (c : ToolCall) (fs : FS) (st' : State) :
  CreateTestData.create_directory_structure (init fs) = (Return tt, st') ->
  (match c with
   | BET _ _ _ _ | FAST _ _ _ | RECON_ALL _ _ None => True
   | _ => False
   end) ->
  forall callee kw seen,
    In (callee, kw, seen)
       (calls_of (st_trace (snd (Server.run niwrap c (init (st_fs st')))))) ->
    seen = st_fs st'.
Proof.
  intros H Hc. unfold CreateTestData.create_directory_structure in H.
  apply for_each_mkdir_creates in H as (H1 & _ & _).
  destruct st' as [fs1 tr1]. cbn [st_fs] in *.
  assert (Ho : fs_mkdir fs1
                 (pathlib.Path "/Users/hp/Desktop/neurodesk/data/outputs")
               = inr fs1).
  { apply fs_mkdir_on_dir, H1. cbn. tauto. }
  assert (Hs : fs_mkdir fs1
                 (pathlib.Path "/Users/hp/Desktop/neurodesk/data/freesurfer_subjects")
               = inr fs1).
  { apply fs_mkdir_on_dir, H1. cbn. tauto. }
  destruct c as [i p f [[|]|]|i p t|i r0 o a|dw r0 o a|i s [sd|]];
    try contradiction;
    unfold_tools; unfold getattr, hasattr;
    cbn [default from_option id dict_set String.eqb Ascii.eqb Bool.eqb];
    repeat (cbn [is_Exception exc_cls]; rewrite ?Ho, ?Hs; unfold_tools;
            try test_step; unfold_tools);
    cbn [snd calls_of app];
    intros callee kw seen Hin; cbn in Hin;
    first [ contradiction
          | destruct Hin as [[= <- <- <-]|[]]; reflexivity ].
Qed.

(** X16.  The tests of BET, FAST and FLIRT never return [True]: the raw
    functions they call never return. *)
Theorem fsl_tests_never_pass (fs : FS) :
  fst (TestTools.test_fsl_bet niwrap format_exc (init fs)) <> Return true
  /\ fst (TestTools.test_fsl_fast niwrap format_exc (init fs)) <> Return true
  /\ fst (TestTools.test_fsl_flirt niwrap format_exc (init fs)) <> Return true.
Proof.
  repeat split; test_run; cbn [fst]; discriminate.
Qed.


(** X17.  The FreeSurfer test returns whether the T1 image exists; it invokes
    no collaborator and creates no directory. *)
Theorem freesurfer_test_is_a_path_check (fs : FS) :
  fst (TestTools.test_freesurfer_recon_all format_exc (init fs)) =
    Return (path_exists fs TestTools.t1_file)
  /\ st_fs (snd (TestTools.test_freesurfer_recon_all format_exc (init fs))) = fs
  /\ calls_of (st_trace (snd (TestTools.test_freesurfer_recon_all format_exc
                                (init fs)))) = []
  /\ mkdirs_of (st_trace (snd (TestTools.test_freesurfer_recon_all format_exc
                                 (init fs)))) = [].
Proof.
  test_run; repeat split; reflexivity.
Qed.

(** X18.  The dwi2fod test returns [True] exactly when both inputs exist and
    [niwrap.mrtrix.dwi2fod], called once on the caller's filesystem, returned
    an object with a [fod] attribute. *)
Theorem dwi2fod_test_passes_iff (fs : FS) (r : result bool) (st' : State) :
  TestTools.test_mrtrix_dwi2fod niwrap format_exc (init fs) = (r, st') ->
  r = Return true <->
  (path_exists fs TestTools.dwi_file = true
   /\ path_exists fs TestTools.response_file = true
   /\ exists kw o fs2,
        calls_of (st_trace st') = [("mrtrix.dwi2fod", kw, fs)]
        /\ niwrap "mrtrix.dwi2fod" kw fs = (inr o, fs2)
        /\ hasattr o "fod" = true).
Proof.
  test_run; intros [= <- <-]; cbn [calls_of app].
  all: split;
    [ intros Hr; first
        [ discriminate
        | split; [reflexivity|]; split; [reflexivity|];
          do 3 eexists; split; [reflexivity|]; split; [eassumption|];
          repeat match goal with H : dict_get _ _ = _ |- _ => rewrite H end;
          reflexivity ]
    | intros (H1 & H2 & kw & ob & fs2 & Hc & Hn & Ha); first
        [ discriminate
        | reflexivity
        | inversion Hc; subst; clear Hc;
          match goal with
          | G1 : niwrap ?a ?b ?c = _, G2 : niwrap ?a ?b ?c = _ |- _ =>
              rewrite G1 in G2; inversion G2; subst
          end;
          repeat match goal with
                 | H : dict_get _ _ = _ |- _ => rewrite H in Ha
                 end; discriminate ] ].
Qed.

End TestProperties.

Section DataCheck.

Variable st_size : FS -> string -> Z.
Variable format_mb : Z -> string.

Lemma check_all_spec (l : list string) (acc : bool) (fs : FS) (tr : list event) :
  exists evs,
    TestTools.check_all st_size format_mb acc l {| st_fs := fs; st_trace := tr |} =
      (Return (acc && forallb (path_exists fs) l),
       {| st_fs := fs; st_trace := tr ++ evs |})
    /\ length evs = length l
    /\ calls_of evs = [] /\ mkdirs_of evs = [].
Proof.
  revert acc tr. induction l as [|x l IH]; intros acc tr.
  - exists []. cbn. unfold ret. rewrite app_nil_r, andb_true_r. auto.
  - cbn [TestTools.check_all forallb]. unfold TestTools.check_one, path_exists.
    unfold_tools. destruct (fs_exists fs (pathlib.Path x)) eqn:E; unfold_tools.
    + match goal with
      | |- context [TestTools.check_all _ _ acc l {| st_fs := fs; st_trace := ?t |}] =>
          destruct (IH acc t) as (evs & -> & Hlen & Hc & Hm)
      end.
      eexists (_ :: evs). rewrite <- app_assoc. cbn [app andb].
      split; [reflexivity|]. cbn. auto.
    + match goal with
      | |- context [TestTools.check_all _ _ false l {| st_fs := fs; st_trace := ?t |}] =>
          destruct (IH false t) as (evs & -> & Hlen & Hc & Hm)
      end.
      eexists (_ :: evs). rewrite <- app_assoc. cbn [app andb].
      rewrite andb_false_r. split; [reflexivity|]. cbn. auto.
Qed.

(** X19.  [check_test_data] returns whether all four test files exist, leaves
    the filesystem alone and prints five lines: the heading and one per file. *)
Theorem check_test_data_reports_all_found (fs : FS) :
  fst (TestTools.check_test_data st_size format_mb (init fs)) =
    Return (forallb (path_exists fs) TestTools.test_files)
  /\ st_fs (snd (TestTools.check_test_data st_size format_mb (init fs))) = fs
  /\ length (st_trace (snd (TestTools.check_test_data st_size format_mb (init fs))))
     = 5%nat.
Proof.
  unfold TestTools.check_test_data. unfold_tools.
  match goal with
  | |- context [TestTools.check_all _ _ true ?l {| st_fs := fs; st_trace := ?t |}] =>
      destruct (check_all_spec l true fs t) as (evs & -> & Hlen & _)
  end.
  cbn [fst snd st_fs st_trace andb]. repeat split.
  rewrite length_app, Hlen. reflexivity.
Qed.

End DataCheck.

(** * Sample runs of the further properties *)

(** Registration interrupted inside the collaborator. *)
Lemma server_errors_classified_witness :
  fst (Server.run niwrap_interrupted
         (FLIRT "/data/t1.nii.gz" "/data/ref.nii.gz" None None) (init fs_demo)) =
    Raise interrupted
  /\ exists kw seen fs2,
       calls_of (st_trace (snd (Server.run niwrap_interrupted
                                  (FLIRT "/data/t1.nii.gz" "/data/ref.nii.gz" None None)
                                  (init fs_demo)))) = [("fsl.flirt", kw, seen)]
       /\ niwrap_interrupted "fsl.flirt" kw seen = (inl interrupted, fs2).
Proof.
  split; [vm_compute; reflexivity|].
  assert (Hrun :
    Server.run niwrap_interrupted
      (FLIRT "/data/t1.nii.gz" "/data/ref.nii.gz" None None) (init fs_demo) =
      (Raise interrupted,
       snd (Server.run niwrap_interrupted
              (FLIRT "/data/t1.nii.gz" "/data/ref.nii.gz" None None)
              (init fs_demo)))) by (vm_compute; reflexivity).
  destruct (server_errors_classified niwrap_interrupted _ _ _ _ Hrun)
    as [(H & _)|[(_ & cause & _ & H)|[(_ & i & s & d & dir & H & _)|
        (_ & _ & kw & seen & fs2 & H1 & H2)]]].
  - vm_compute in H. discriminate.
  - discriminate.
  - discriminate.
  - exists kw, seen, fs2. split; assumption.
Defined.

Lemma server_returns_iff_witness :
  exists resp st',
    Server.run niwrap_ok (FLIRT "/data/t1.nii.gz" "/data/ref.nii.gz" None None)
      (init fs_demo) = (Return resp, st')
    /\ ((exists resp0, Return resp = Return resp0) <->
        (exists kw seen o fs2,
            calls_of (st_trace st') = [("fsl.flirt", kw, seen)]
            /\ niwrap_ok "fsl.flirt" kw seen = (inr o, fs2)
            /\ forall a, Some "outfile" = Some a -> hasattr o a = true)).
Proof.
  do 2 eexists. split; [vm_compute; reflexivity|].
  apply (server_returns_iff niwrap_ok
           (FLIRT "/data/t1.nii.gz" "/data/ref.nii.gz" None None) fs_demo).
  vm_compute. reflexivity.
Defined.

(** The same call with a collaborator whose result has no [outfile]. *)
Example flirt_without_outfile :
  fst (Server.run niwrap_bare (FLIRT "/data/t1.nii.gz" "/data/ref.nii.gz" None None)
         (init fs_demo)) =
    Raise (Exn RuntimeError
             "FLIRT processing failed: 'Outputs' object has no attribute 'outfile'"
             (Some (Exn AttributeError
                      "'Outputs' object has no attribute 'outfile'" None))).
Proof. vm_compute. reflexivity. Qed.

(** Brain extraction with the mask switched off. *)
Lemma bet_binary_mask_flag_witness :
  exists r st',
    Server.fsl_bet_brain_extraction niwrap_ok "/data/t1.nii.gz" None None
      (Some false) (init fs_demo) = (r, st')
    /\ (forall callee kw seen,
           In (callee, kw, seen) (calls_of (st_trace st')) ->
           dict_get kw "binary_mask" = None)
    /\ (forall resp,
          r = Return resp ->
          exists kw seen o fs2,
            calls_of (st_trace st') = [("fsl.bet", kw, seen)]
            /\ niwrap_ok "fsl.bet" kw seen = (inr o, fs2)
            /\ dict_get resp "brain_mask" = None).
Proof.
  do 2 eexists. split; [vm_compute; reflexivity|].
  apply (bet_binary_mask_flag niwrap_ok fs_demo "/data/t1.nii.gz" None None
           (Some false)).
  vm_compute. reflexivity.
Defined.

Lemma response_shape_witness :
  exists resp st',
    Server.run niwrap_ok (FAST "/data/t1.nii.gz" None None) (init fs_demo) =
      (Return resp, st')
    /\ (dict_keys resp = ["segmented_image"; "tissue_maps"; "bias_field"; "metadata"]
        \/ (exists i p f m,
               FAST "/data/t1.nii.gz" None None = BET i p f m
               /\ default true m = true
               /\ dict_keys resp =
                    ["segmented_image"; "tissue_maps"; "bias_field"; "metadata"]
                    ++ ["brain_mask"]))
    /\ exists m, dict_get resp "metadata" = Some (VDict m).
Proof.
  do 2 eexists. split; [vm_compute; reflexivity|].
  eapply (response_shape niwrap_ok (FAST "/data/t1.nii.gz" None None) fs_demo).
  vm_compute. reflexivity.
Defined.

Lemma primary_output_passes_through_witness :
  exists resp st',
    Server.run niwrap_ok (FAST "/data/t1.nii.gz" None None) (init fs_demo) =
      (Return resp, st')
    /\ required_attr (FAST "/data/t1.nii.gz" None None) = Some "outfile"
    /\ exists kw seen o fs2,
         calls_of (st_trace st') = [("fsl.fast", kw, seen)]
         /\ niwrap_ok "fsl.fast" kw seen = (inr o, fs2)
         /\ dict_get resp "segmented_image" = dict_get (obj_attrs o) "outfile"
         /\ dict_get resp "tissue_maps" =
              Some (getattr_default o "tissue_maps" (VList []))
         /\ dict_get resp "bias_field" =
              Some (getattr_default o "bias_field" VNone).
Proof.
  do 2 eexists. split; [vm_compute; reflexivity|]. split; [reflexivity|].
  apply (primary_output_passes_through niwrap_ok
           (FAST "/data/t1.nii.gz" None None) fs_demo);
    [vm_compute; reflexivity | reflexivity].
Defined.

Lemma raw_dwi2fod_matches_server_witness :
  (forall kw fs0,
      niwrap_ok "mrtrix.dwi2fod" kw fs0 = niwrap_ok "mrtrix3.dwi2fod" kw fs0)
  /\ fst (Raw.mrtrix_dwi2fod_raw niwrap_ok "/data/dwi.mif" "/data/response.txt"
            None None (init fs_demo)) =
       fst (Server.mrtrix_dwi2fod niwrap_ok "/data/dwi.mif" "/data/response.txt"
              None None (init fs_demo))
  /\ st_fs (snd (Raw.mrtrix_dwi2fod_raw niwrap_ok "/data/dwi.mif"
                   "/data/response.txt" None None (init fs_demo))) =
       st_fs (snd (Server.mrtrix_dwi2fod niwrap_ok "/data/dwi.mif"
                     "/data/response.txt" None None (init fs_demo))).
Proof.
  split; [reflexivity|].
  apply (raw_dwi2fod_matches_server niwrap_ok fs_demo "/data/dwi.mif"
           "/data/response.txt" None None).
  reflexivity.
Defined.

(** An output name without the suffix, and one with it. *)
Lemma raw_flirt_matrix_path_witness :
  path_exists fs_demo "/data/t1.nii.gz" = true
  /\ path_exists fs_demo "/data/ref.nii.gz" = true
  /\ exists kw,
       calls_of (st_trace (snd (Raw.fsl_flirt_registration_raw niwrap_ok
                                  "/data/t1.nii.gz" "/data/ref.nii.gz"
                                  (Some "/data/registered") None
                                  (init fs_demo)))) = [("fsl.flirt", kw, fs_demo)]
       /\ dict_get kw "out_file" = Some (VStr "/data/registered")
       /\ (occurs_in ".nii.gz" "/data/registered" = false ->
           dict_get kw "out_matrix_file" = Some (VStr "/data/registered"))
       /\ (forall base,
             "/data/registered" = base +:+ ".nii.gz" -> no_dot base = true ->
             dict_get kw "out_matrix_file" = Some (VStr (base +:+ ".mat"))).
Proof.
  split; [vm_compute; reflexivity|]. split; [vm_compute; reflexivity|].
  apply (raw_flirt_matrix_path niwrap_ok fs_demo "/data/t1.nii.gz"
           "/data/ref.nii.gz" "/data/registered" None);
    vm_compute; reflexivity.
Defined.

Example raw_flirt_matrix_paths :
  str_replace "/data/registered" ".nii.gz" ".mat" = "/data/registered"
  /\ str_replace "/data/out/test_registered.nii.gz" ".nii.gz" ".mat"
     = "/data/out/test_registered.mat".
Proof. split; reflexivity. Qed.

Lemma raw_validation_matches_server_witness :
  inputs_exist fs_demo (BET "/data/missing.nii.gz" None None None) = false
  /\ (exists e,
         fst (Server.run niwrap_ok (BET "/data/missing.nii.gz" None None None)
                (init fs_demo)) = Raise e
         /\ exc_cls e = FileNotFoundError)
  /\ fst (Raw.run niwrap_ok (BET "/data/missing.nii.gz" None None None)
            (init fs_demo)) =
       fst (Server.run niwrap_ok (BET "/data/missing.nii.gz" None None None)
              (init fs_demo))
  /\ snd (Raw.run niwrap_ok (BET "/data/missing.nii.gz" None None None)
            (init fs_demo)) =
       {| st_fs := fs_demo;
          st_trace :=
            map as_print
              (st_trace (snd (Server.run niwrap_ok
                                (BET "/data/missing.nii.gz" None None None)
                                (init fs_demo)))) |}
  /\ length (st_trace (snd (Raw.run niwrap_ok
                              (BET "/data/missing.nii.gz" None None None)
                              (init fs_demo)))) = 1%nat.
Proof.
  split; [vm_compute; reflexivity|].
  apply (raw_validation_matches_server niwrap_ok
           (BET "/data/missing.nii.gz" None None None) fs_demo).
  vm_compute. reflexivity.
Defined.

(** The layout on an empty disk. *)
Lemma create_directory_structure_creates_all_witness :
  exists st',
    CreateTestData.create_directory_structure (init fs_empty) = (Return tt, st')
    /\ (forall d, In d CreateTestData.directories ->
                  fs_is_dir (st_fs st') (pathlib.Path d) = true)
    /\ (forall k v, entries fs_empty !! k = Some v ->
                    entries (st_fs st') !! k = Some v).
Proof.
  eexists. split; [vm_compute; reflexivity|].
  apply (create_directory_structure_creates_all fs_empty).
  vm_compute. reflexivity.
Defined.

Lemma create_directory_structure_idempotent_witness :
  exists st',
    CreateTestData.create_directory_structure (init fs_empty) = (Return tt, st')
    /\ fst (CreateTestData.create_directory_structure (init (st_fs st')))
       = Return tt
    /\ st_fs (snd (CreateTestData.create_directory_structure (init (st_fs st'))))
       = st_fs st'.
Proof.
  eexists. split; [vm_compute; reflexivity|].
  apply (create_directory_structure_idempotent fs_empty).
  vm_compute. reflexivity.
Defined.

(** The layout fails as a whole where nothing can be written. *)
Example create_directory_structure_readonly :
  fst (CreateTestData.create_directory_structure (init fs_readonly)) =
    Raise (Exn PermissionError
             "[Errno 13] Permission denied: /Users/hp/Desktop/neurodesk/data/t1_structural"
             None).
Proof. vm_compute. reflexivity. Qed.

Lemma prepared_layout_needs_no_mkdir_witness :
  exists st',
    CreateTestData.create_directory_structure (init fs_prepared) = (Return tt, st')
    /\ forall callee kw seen,
         In (callee, kw, seen)
            (calls_of (st_trace (snd (Server.run niwrap_ok
                                        (BET TestTools.t1_file None None None)
                                        (init (st_fs st')))))) ->
         seen = st_fs st'.
Proof.
  eexists. split; [vm_compute; reflexivity|].
  apply (prepared_layout_needs_no_mkdir niwrap_ok
           (BET TestTools.t1_file None None None) fs_prepared);
    [vm_compute; reflexivity | exact I].
Defined.

Lemma dwi2fod_test_passes_iff_witness :
  exists st',
    TestTools.test_mrtrix_dwi2fod niwrap_ok exc_str (init fs_prepared) =
      (Return true, st')
    /\ (Return true = Return true <->
        (path_exists fs_prepared TestTools.dwi_file = true
         /\ path_exists fs_prepared TestTools.response_file = true
         /\ exists kw o fs2,
              calls_of (st_trace st') = [("mrtrix.dwi2fod", kw, fs_prepared)]
              /\ niwrap_ok "mrtrix.dwi2fod" kw fs_prepared = (inr o, fs2)
              /\ hasattr o "fod" = true)).
Proof.
  eexists. split; [vm_compute; reflexivity|].
  apply (dwi2fod_test_passes_iff niwrap_ok exc_str fs_prepared).
  vm_compute. reflexivity.
Defined.

(** The tests on a prepared disk with every collaborator in place. *)
Example tests_on_prepared_disk :
  fst (TestTools.test_fsl_bet niwrap_ok exc_str (init fs_prepared)) = Return false
  /\ fst (TestTools.test_fsl_fast niwrap_ok exc_str (init fs_prepared)) = Return false
  /\ fst (TestTools.test_fsl_flirt niwrap_ok exc_str (init fs_prepared)) = Return false
  /\ fst (TestTools.test_mrtrix_dwi2fod niwrap_ok exc_str (init fs_prepared)) = Return true
  /\ fst (TestTools.test_freesurfer_recon_all exc_str (init fs_prepared)) = Return true
  /\ fst (TestTools.check_test_data (fun _ _ => 0) (fun _ => "0.0") (init fs_prepared))
     = Return true
  /\ fst (TestTools.check_test_data (fun _ _ => 0) (fun _ => "0.0") (init fs_demo))
     = Return false.
Proof. repeat split; vm_compute; reflexivity. Qed.
